(** * Tool bodies of the agent (tool_use/src/tools.py)

    A shallow embedding of the four registered tools
    ([convert_currency], [get_weather], [web_search], [get_stock_price])
    and of the helper [get_ticker], together with the part of the Python
    object model they rely on (JSON values, truthiness, [in], subscripting,
    [dict.get], iteration, [try]/[except]).

    External services are a [World]: a function from the request a tool
    issues to what the network (or the finance library) answers.  Every tool
    runs in a small monad that carries the raised exception, if any, and the
    ordered trace of external calls the body made. *)

From Stdlib Require Import PrimFloat SpecFloat FloatOps Ascii String ZArith.
From stdpp Require Import gmap strings list fin_maps pretty.

Set Warnings "-register-all".
Local Open Scope string_scope.
Local Open Scope Z_scope.
Local Open Scope list_scope.

(** ** Python values *)

(** The values that reach the tool bodies: what [json.loads] and
    [response.json()] produce, the keyword arguments of a call, and the
    strings the tools return.  Python's [float] is IEEE binary64. *)
Inductive value : Type :=
| VNone
| VBool (b : bool)
| VInt (z : Z)
| VFloat (f : float)
| VStr (s : string)
| VList (l : list value)
| VDict (d : gmap string value).

Definition truthy (v : value) : bool :=
  match v with
  | VNone => false
  | VBool b => b
  | VInt z => negb (z =? 0)
  | VFloat f => negb (PrimFloat.eqb f 0%float)
  | VStr s => negb (String.eqb s EmptyString)
  | VList l => match l with [] => false | _ => true end
  | VDict d => negb (bool_decide (d = ∅))
  end.

(** [x is None] *)
Definition is_None (v : value) : bool :=
  match v with VNone => true | _ => false end.

(** [float(z)] for an int: rounded to nearest-even, [None] when the int is
    too large for a binary64 (Python's OverflowError). *)
Definition float_of_int (z : Z) : option float :=
  match binary_normalize prec emax z 0 false with
  | S754_infinity _ => None
  | sf => Some (SF2Prim sf)
  end.

(** ** Strings *)

(** [needle in hay] for two strings: [needle] occurs as a substring. *)
Fixpoint substring_of (needle hay : string) : bool :=
  (String.prefix needle hay ||
   match hay with
   | EmptyString => false
   | String _ hay' => substring_of needle hay'
   end)%bool.

Definition newline : string := String "010"%char EmptyString.

(** ** Floats as text *)

(** [num / den] rounded to the nearest integer, ties to even ([den > 0]). *)
Definition div_half_even (num den : Z) : Z :=
  let q := num / den in
  let r := num mod den in
  if 2 * r <? den then q
  else if den <? 2 * r then q + 1
  else if Z.even q then q else q + 1.

Definition pad2 (z : Z) : string :=
  if z <? 10 then "0" +:+ pretty z else pretty z.

(** [format(x, ".2f")]: the exact binary value, correctly rounded to
    hundredths. *)
Definition float_2f (x : float) : string :=
  match Prim2SF x with
  | S754_nan => "nan"
  | S754_infinity s => if s then "-inf" else "inf"
  | S754_zero s => if s then "-0.00" else "0.00"
  | S754_finite s m e =>
      let h := if 0 <=? e then 100 * Z.pos m * 2 ^ e
               else div_half_even (100 * Z.pos m) (2 ^ (- e)) in
      (if s then "-" else EmptyString)
        +:+ pretty (h / 100) +:+ "." +:+ pad2 (h mod 100)
  end.

Definition digits (z : Z) : Z := Z.of_nat (String.length (pretty z)).

Fixpoint zeros (n : nat) : string :=
  match n with O => EmptyString | S n' => String "0" (zeros n') end.

Fixpoint strip_zeros (s : string) : string :=
  match s with
  | EmptyString => EmptyString
  | String c s' =>
      match strip_zeros s' with
      | EmptyString => if Ascii.eqb c "0" then EmptyString else String c EmptyString
      | r => String c r
      end
  end.

Fixpoint take_str (n : nat) (s : string) : string :=
  match n, s with
  | S n', String c s' => String c (take_str n' s')
  | _, _ => EmptyString
  end.

Fixpoint drop_str (n : nat) (s : string) : string :=
  match n, s with
  | S n', String _ s' => drop_str n' s'
  | _, _ => s
  end.

(** The shortest decimal [D * 10^k] that reads back as the float
    [m * 2^e], nearest to it among the shortest: [repr]'s digits. *)
Section Shortest.

Variables (m : positive) (e : Z).

(** Everything is scaled by [T] so that the float and the midpoints to its
    two neighbours are integers. *)
Let sh : Z := 2 ^ (e + Z.max 0 (- e)).
Let T : Z := 4 * 2 ^ (Z.max 0 (- e)).
Let X : Z := 4 * Z.pos m * sh.
Let low : Z :=
  X - (if (Z.pos m =? 2 ^ 52) && (-1074 <? e) then sh else 2 * sh).
Let high : Z := X + 2 * sh.

(** [10^p <= x < 10^(p+1)] *)
Definition exponent10 : Z :=
  if T <=? X then digits (X / T) - 1
  else
    let d := digits (T / X) in
    if X * 10 ^ (d - 1) =? T then - (d - 1) else - d.

Definition reads_back (D k : Z) : bool :=
  let P := 10 ^ Z.max 0 k in
  let Q := 10 ^ Z.max 0 (- k) in
  let v := D * P * T in
  ((low * Q <? v) && (v <? high * Q))
  || (Z.even (Z.pos m) && ((v =? low * Q) || (v =? high * Q))).

Definition candidate (n : Z) : option (Z * Z) :=
  let k := exponent10 - (n - 1) in
  let P := 10 ^ Z.max 0 k in
  let Q := 10 ^ Z.max 0 (- k) in
  let D0 := (X * Q) / (P * T) in
  let D1 := D0 + 1 in
  let below := X * Q - D0 * P * T in
  let above := D1 * P * T - X * Q in
  match reads_back D0 k, reads_back D1 k with
  | true, true =>
      if below <? above then Some (D0, k)
      else if above <? below then Some (D1, k)
      else if Z.even D0 then Some (D0, k) else Some (D1, k)
  | true, false => Some (D0, k)
  | false, true => Some (D1, k)
  | false, false => None
  end.

Fixpoint shortest (fuel : nat) (n : Z) : Z * Z :=
  match candidate n, fuel with
  | Some c, _ => c
  | None, S fuel' => shortest fuel' (n + 1)
  | None, O => (Z.pos m, 0)
  end.

End Shortest.

(** [repr] lays the digits out in fixed notation when the decimal point
    falls within -4 < decpt <= 16, in exponent notation otherwise. *)
Definition layout (ds : string) (decpt : Z) : string :=
  let nd := Z.of_nat (String.length ds) in
  if (decpt <=? -4) || (16 <? decpt) then
    let ex := decpt - 1 in
    take_str 1 ds
      +:+ (if 1 <? nd then "." +:+ drop_str 1 ds else EmptyString)
      +:+ "e" +:+ (if ex <? 0 then "-" else "+") +:+ pad2 (Z.abs ex)
  else if decpt <=? 0 then
    "0." +:+ zeros (Z.to_nat (- decpt)) +:+ ds
  else if nd <=? decpt then
    ds +:+ zeros (Z.to_nat (decpt - nd)) +:+ ".0"
  else
    take_str (Z.to_nat decpt) ds +:+ "." +:+ drop_str (Z.to_nat decpt) ds.

(** [str(x)] of a float, which is [repr(x)]: what an f-string field [{x}]
    inserts. *)
Definition float_str (x : float) : string :=
  match Prim2SF x with
  | S754_nan => "nan"
  | S754_infinity s => if s then "-inf" else "inf"
  | S754_zero s => if s then "-0.0" else "0.0"
  | S754_finite s m e =>
      let '(D, k) := shortest m e 17 1 in
      (if s then "-" else EmptyString)
        +:+ layout (strip_zeros (pretty D)) (digits D + k)
  end.

Arguments float_str : simpl never.
Arguments float_2f : simpl never.

(** ** Exceptions and the tool monad *)

(** The exceptions the modelled operations raise, plus [Upstream] for
    whatever an external library raises (connection errors, decoding errors,
    ...).  All of them derive from Python's [Exception]. *)
Inductive py_exception : Type :=
| TypeError (operation : string)
| AttributeError (attribute : string)
| KeyError (key : value)
| IndexError
| OverflowError
| HTTPError (status : Z)
| Upstream (class message : string).

(** ** External calls *)

Inductive client := Urllib | Requests.
Inductive http_method := GET | POST.

(** One HTTP request as the tool body issues it.  [timeout] is the deadline
    in seconds the caller passes, [None] when the call site passes none. *)
Record request : Type := {
  via : client;
  method : http_method;
  url : string;
  headers : list (string * string);
  json : option value;
  timeout : option Z
}.

(** What a tool body asks of the outside: an HTTP request, or a price history
    from the finance library ([yf.Ticker(symbol).history(period=...)]). *)
Inductive call : Type :=
| Http (r : request)
| YfHistory (symbol : value) (period : string).

Inductive outcome (A : Type) : Type :=
| Return (a : A)
| Raise (e : py_exception).
Arguments Return {A} a.
Arguments Raise {A} e.

(** A computation yields its outcome and the calls it made, in order. *)
Definition M (A : Type) : Type := outcome A * list call.

Global Instance M_ret : MRet M := λ A a, (Return a, []).

Global Instance M_bind : MBind M := λ A B k m,
  match m with
  | (Return a, t) => let '(r, t') := k a in (r, t ++ t')
  | (Raise e, t) => (Raise e, t)
  end.

Definition raise {A} (e : py_exception) : M A := (Raise e, []).

Definition lift {A} (r : py_exception + A) : M A :=
  match r with inl e => raise e | inr a => mret a end.

(** [try: body except Exception as e: handler e] *)
Definition try_except {A} (body : M A) (handler : py_exception → M A) : M A :=
  match body with
  | (Return a, t) => (Return a, t)
  | (Raise e, t) => let '(r, t') := handler e in (r, t ++ t')
  end.

Definition result {A} (m : M A) : outcome A := fst m.
Definition trace {A} (m : M A) : list call := snd m.

(** ** The outside world *)

(** An HTTP response: [json_body] is what decoding the body as JSON gives
    ([json.loads(response.read())], [response.json()]), an exception when
    reading fails or the body is malformed. *)
Record response : Type := {
  status_code : Z;
  text : string;
  json_body : py_exception + value
}.

(** A pandas DataFrame of floats, as [history] returns it. *)
Record DataFrame : Type := {
  df_rows : nat;
  df_columns : gmap string (list float)
}.

Record World : Type := {
  http : request → py_exception + response;
  yf_history : value → string → py_exception + DataFrame
}.

(** ** Module start-up *)

(** [os.getenv(name)] *)
Definition os_getenv (environ : gmap string string) (name : string) : value :=
  match environ !! name with
  | Some s => VStr s
  | None => VNone
  end.

Record Globals : Type := { TAVILY_API_KEY : value }.

(** The module-level statements of tools.py: line 12. *)
Definition load_module (environ : gmap string string) : outcome Globals :=
  Return {| TAVILY_API_KEY := os_getenv environ "TAVILY_API_KEY" |}.

(** What the interpreter and the libraries fix: [str(e)] of an exception,
    [str] of a list or dict (which follows the insertion order of the
    dict), and the string methods [s.upper()] and [s.strip()], which follow
    the interpreter's Unicode tables (case mappings, white space). *)
Class Runtime : Type := {
  exc_str : py_exception → string;
  container_str : value → string;
  str_upper : string → string;
  str_strip : string → string
}.

Section Tools.

Context `{RT : Runtime}.
Variable W : World.

(** [str(v)], what an f-string field [{v}] inserts. *)
Definition py_str (v : value) : string :=
  match v with
  | VNone => "None"
  | VBool true => "True"
  | VBool false => "False"
  | VInt z => pretty z
  | VFloat f => float_str f
  | VStr s => s
  | VList _ | VDict _ => container_str v
  end.

(** *** Object model *)

(** [d.get(key, default)] on a dict; other objects have no [get]. *)
Definition py_get (obj : value) (key : string) (dflt : value) : M value :=
  match obj with
  | VDict d => mret (default dflt (d !! key))
  | _ => raise (AttributeError "get")
  end.

(** [item in container] for a str [item]: key of a dict, element of a
    list, substring of a str. *)
Definition py_contains (item : string) (container : value) : M bool :=
  match container with
  | VDict d => mret (bool_decide (is_Some (d !! item)))
  | VList l =>
      mret (existsb (λ x, match x with
                          | VStr s => String.eqb s item
                          | _ => false
                          end) l)
  | VStr s => mret (substring_of item s)
  | _ => raise (TypeError "in")
  end.

(** [obj[key]] for a str [key] *)
Definition py_getitem (obj : value) (key : string) : M value :=
  match obj with
  | VDict d =>
      match d !! key with
      | Some v => mret v
      | None => raise (KeyError (VStr key))
      end
  | _ => raise (TypeError "subscript")
  end.

(** [obj[0]] *)
Definition py_first (obj : value) : M value :=
  match obj with
  | VList (x :: _) => mret x
  | VList [] => raise IndexError
  | VStr (String c _) => mret (VStr (String c EmptyString))
  | VStr EmptyString => raise IndexError
  | VDict _ => raise (KeyError (VInt 0))
  | _ => raise (TypeError "subscript")
  end.

Fixpoint chars (s : string) : list value :=
  match s with
  | EmptyString => []
  | String c s' => VStr (String c EmptyString) :: chars s'
  end.

(** The elements a [for] loop (or [enumerate]) draws from [obj].  A JSON
    dict yields its keys. *)
Definition py_iter (obj : value) : M (list value) :=
  match obj with
  | VList l => mret l
  | VDict d => mret (VStr <$> (map_to_list d).*1)
  | VStr s => mret (chars s)
  | _ => raise (TypeError "iter")
  end.

(** [a * v] for a float [a]; [bool] is an int in Python. *)
Definition float_mul (a : float) (v : value) : M float :=
  match v with
  | VFloat r => mret (a * r)%float
  | VInt z =>
      match float_of_int z with
      | Some r => mret (a * r)%float
      | None => raise OverflowError
      end
  | VBool b => mret (a * (if b then 1 else 0))%float
  | _ => raise (TypeError "*")
  end.

(** *** DataFrame *)

(** [data.empty] *)
Definition df_empty (data : DataFrame) : bool :=
  (Nat.eqb (df_rows data) 0 || bool_decide (df_columns data = ∅))%bool.

(** [data[column]] *)
Definition df_column (data : DataFrame) (column : string) : M (list float) :=
  match df_columns data !! column with
  | Some c => mret c
  | None => raise (KeyError (VStr column))
  end.

(** [series.iloc[-1]] *)
Definition iloc_last (series : list float) : M float :=
  match last series with
  | Some x => mret x
  | None => raise IndexError
  end.

(** *** HTTP clients *)

Definition perform {A} (c : call) (r : py_exception + A) : M A :=
  match r with
  | inl e => (Raise e, [c])
  | inr a => (Return a, [c])
  end.

(** [urllib.request.urlopen(url)]: a status outside 2xx is raised. *)
Definition urlopen (u : string) (t : option Z) : M response :=
  let r := {| via := Urllib; method := GET; url := u; headers := [];
              json := None; timeout := t |} in
  resp ← perform (Http r) (http W r);
  if (200 <=? status_code resp) && (status_code resp <? 300)
  then mret resp else raise (HTTPError (status_code resp)).

(** [requests.get(url, timeout=t, headers=h)] *)
Definition requests_get (u : string) (h : list (string * string))
    (t : option Z) : M response :=
  let r := {| via := Requests; method := GET; url := u; headers := h;
              json := None; timeout := t |} in
  perform (Http r) (http W r).

(** [requests.post(url=u, json=payload, timeout=t)] *)
Definition requests_post (u : string) (payload : value) (t : option Z)
    : M response :=
  let r := {| via := Requests; method := POST; url := u; headers := [];
              json := Some payload; timeout := t |} in
  perform (Http r) (http W r).

(** [response.raise_for_status()] *)
Definition raise_for_status (resp : response) : M unit :=
  if (400 <=? status_code resp) && (status_code resp <? 600)
  then raise (HTTPError (status_code resp)) else mret tt.

(** *** get_weather (tools.py 41-57) *)

Definition get_weather (city : value) (kwargs : gmap string value) : M value :=
  let city := if is_None city then default VNone (kwargs !! "location")
              else city in
  if negb (truthy city) then mret (VStr "Error: No city provided.")
  else
    try_except
      (let u := "http://wttr.in/" +:+ py_str city +:+ "?format=3" in
       resp ← requests_get u [] (Some 5);
       raise_for_status resp;;
       mret (VStr (str_strip (text resp))))
      (λ e, mret (VStr ("Error retrieving weather for " +:+ py_str city
                        +:+ ": " +:+ exc_str e))).

(** *** convert_currency (tools.py 13-38) *)

Definition convert_currency (amount : float)
    (from_currency to_currency : string) : M value :=
  try_except
    (let u := "https://open.er-api.com/v6/latest/" +:+ str_upper from_currency in
     resp ← urlopen u None;
     data ← lift (json_body resp);
     has_rates ← py_contains "rates" data;
     if negb has_rates then mret (VStr "Error: Could not fetch exchange rates")
     else
       rates ← py_getitem data "rates";
       rate ← py_get rates (str_upper to_currency) VNone;
       if negb (truthy rate)
       then mret (VStr ("Error: No rate found for " +:+ to_currency))
       else
         converted ← float_mul amount rate;
         mret (VStr (float_str amount +:+ " " +:+ str_upper from_currency
                     +:+ " = " +:+ float_2f converted
                     +:+ " " +:+ str_upper to_currency)))
    (λ e, mret (VStr ("Error converting currency: " +:+ exc_str e))).

(** *** web_search (tools.py 62-91) *)

(** The body of the [for i, result in enumerate(results, 1)] loop. *)
Fixpoint format_results (results : list value) (i : Z) (formatted : string)
    : M string :=
  match results with
  | [] => mret formatted
  | r :: rest =>
      title ← py_get r "title" (VStr "No Title");
      snippet ← py_get r "snippet" (VStr "No snippet available");
      format_results rest (i + 1)
        (formatted +:+ "Result " +:+ pretty i +:+ ": " +:+ py_str title
         +:+ newline +:+ py_str snippet +:+ newline +:+ newline)
  end.

Definition search_payload (G : Globals) (query : string) : value :=
  VDict (list_to_map
    [ ("api_key", TAVILY_API_KEY G);
      ("query", VStr query);
      ("search_depth", VStr "advanced");
      ("include_images", VBool true);
      ("include_raw_content", VBool true);
      ("max_results", VInt 4) ]).

Definition web_search (G : Globals) (query : string) : M value :=
  let u := "https://api.tavily.com/search" in
  let payload := search_payload G query in
  try_except
    (resp ← requests_post u payload (Some 10);
     raise_for_status resp;;
     response_j ← lift (json_body resp);
     results ← py_get response_j "results" (VList []);
     if negb (truthy results) then mret (VStr "No results found.")
     else
       items ← py_iter results;
       formatted_results ← format_results items 1 EmptyString;
       mret (VStr (str_strip formatted_results)))
    (λ e, mret (VStr ("Error during web search: " +:+ exc_str e))).

(** *** get_ticker (tools.py 95-112) *)

Definition get_ticker (company : string) : M value :=
  try_except
    (let u := "https://query2.finance.yahoo.com/v1/finance/search?q="
              +:+ company in
     let h := [("User-Agent", "Mozilla/5.0")] in
     resp ← requests_get u h (Some 10);
     raise_for_status resp;;
     data ← lift (json_body resp);
     quotes ← py_get data "quotes" (VList []);
     if truthy quotes
     then q ← py_first quotes; py_get q "symbol" VNone
     else mret VNone)
    (λ e, mret VNone).

(** *** get_stock_price (tools.py 114-131) *)

Definition get_stock_price (company : string) : M value :=
  ticker_symbol ← get_ticker company;
  if negb (truthy ticker_symbol)
  then mret (VStr ("Could not find a ticker symbol for " +:+ company +:+ "."))
  else
    try_except
      (data ← perform (YfHistory ticker_symbol "1d")
                      (yf_history W ticker_symbol "1d");
       if df_empty data
       then mret (VStr ("Could not retrieve data for " +:+ company +:+ "."))
       else
         close ← df_column data "Close";
         price ← iloc_last close;
         mret (VStr ("The current stock price of " +:+ company +:+ " ("
                     +:+ py_str ticker_symbol +:+ ") is $"
                     +:+ float_2f price)))
      (λ e, mret (VStr ("Error retrieving stock price for " +:+ company
                        +:+ ": " +:+ exc_str e))).

End Tools.

(** ** Deadlines *)

(** The request carries a caller-supplied deadline of 5 to 10 seconds. *)
Definition has_deadline (r : request) : bool :=
  match timeout r with
  | Some t => (5 <=? t) && (t <=? 10)
  | None => false
  end.

Definition http_requests (t : list call) : list request :=
  omap (λ c, match c with Http r => Some r | YfHistory _ _ => None end) t.

(** ** Tool registry *)

Module Registry.

(** Modelled from the spec: the semantic types of a parameter (section 3 of
    the spec; tool_registry.py is not among the sources). *)
Inductive semantic_type := TString | TNumber | TBoolean.

(** Modelled from the spec: one entry of a descriptor's [parameters]. *)
Record ToolParameter : Type := {
  param_name : string;
  param_type : semantic_type;
  required : bool;
  default_value : option value
}.

(** Modelled from the spec: the tool descriptor and registry of
    tool_registry.py, of which tools.py only imports the [tool] decorator.
    Data model of section 3, operations of section 4.2, errors of section 7. *)
Record ToolDescriptor : Type := {
  name : string;
  description : string;
  parameters : list ToolParameter;
  open_parameters : bool;
  invoke : gmap string value → M value
}.

(** Modelled from the spec: the registry maps a name to its descriptor;
    [order] keeps the registration order that [listSchemas] reports. *)
Record ToolRegistry : Type := {
  entries : gmap string ToolDescriptor;
  order : list string
}.

(** Modelled from the spec: the error taxonomy of section 7. *)
Inductive ConfigurationError :=
| DuplicateToolError (tool : string)
| MalformedDescriptor (tool : string).

(** Modelled from the spec: the errors a registry operation fails with. *)
Inductive RegistryError :=
| Configuration (e : ConfigurationError)
| UnknownToolError (tool : string).

(** Modelled from the spec: the registry before any tool is registered. *)
Definition empty : ToolRegistry := {| entries := ∅; order := [] |}.

(** Modelled from the spec: [register(descriptor)] adds the descriptor and
    fails with a DuplicateToolError if the name already exists.  The second
    component is the registry after the call. *)
Definition register (d : ToolDescriptor) (r : ToolRegistry)
    : (ConfigurationError + unit) * ToolRegistry :=
  match entries r !! name d with
  | Some _ => (inl (DuplicateToolError (name d)), r)
  | None => (inr tt, {| entries := <[name d := d]> (entries r);
                        order := order r ++ [name d] |})
  end.

(** Modelled from the spec: [get(name)] returns the descriptor or fails with
    UnknownToolError. *)
Definition get (n : string) (r : ToolRegistry) : RegistryError + ToolDescriptor :=
  match entries r !! n with
  | Some d => inr d
  | None => inl (UnknownToolError n)
  end.

(** Modelled from the spec: [listSchemas()] lists the descriptors in
    registration order. *)
Definition listSchemas (r : ToolRegistry) : list ToolDescriptor :=
  omap (λ n, entries r !! n) (order r).

End Registry.

(** ** The requests the tools send *)

Section Requests.

Context `{RT : Runtime}.

Definition rates_request (from_currency : string) : request :=
  {| via := Urllib; method := GET;
     url := "https://open.er-api.com/v6/latest/" +:+ str_upper from_currency;
     headers := []; json := None; timeout := None |}.

Definition weather_request (city : value) : request :=
  {| via := Requests; method := GET;
     url := "http://wttr.in/" +:+ py_str city +:+ "?format=3";
     headers := []; json := None; timeout := Some 5 |}.

Definition search_request (G : Globals) (query : string) : request :=
  {| via := Requests; method := POST;
     url := "https://api.tavily.com/search";
     headers := []; json := Some (search_payload G query);
     timeout := Some 10 |}.

Definition ticker_request (company : string) : request :=
  {| via := Requests; method := GET;
     url := "https://query2.finance.yahoo.com/v1/finance/search?q="
            +:+ company;
     headers := [("User-Agent", "Mozilla/5.0")]; json := None;
     timeout := Some 10 |}.

End Requests.

(** [urlopen] hands the response over (2xx). *)
Definition urlopen_ok (resp : response) : Prop :=
  200 ≤ status_code resp < 300.

(** [raise_for_status] raises (4xx, 5xx). *)
Definition error_status (resp : response) : Prop :=
  400 ≤ status_code resp < 600.

(** A rate [amount] can be multiplied by: a non-zero JSON number (or
    [true], which Python counts as 1). *)
Definition usable_rate (v : value) : option float :=
  match v with
  | VFloat r => if truthy v then Some r else None
  | VInt z => if truthy v then float_of_int z else None
  | VBool b => if b then Some 1%float else None
  | _ => None
  end.

(** The call returned a [str]. *)
Definition returns_str (m : M value) : Prop :=
  ∃ s, result m = Return (VStr s).

(** The call returned a [str] or raised. *)
Definition str_unless_raised (m : M value) : Prop :=
  match result m with
  | Return (VStr _) => True
  | Return _ => False
  | Raise _ => True
  end.

(** ** Sample runtime and worlds *)

(** Upper-casing and stripping for text in the ASCII range, where they are
    what the interpreter does; bytes outside that range are left as they
    are.  Only the sample runtime below uses them. *)
Definition upper_ascii (c : ascii) : ascii :=
  let n := nat_of_ascii c in
  if (Nat.leb 97 n && Nat.leb n 122)%bool then ascii_of_nat (n - 32) else c.

Fixpoint ascii_upper (s : string) : string :=
  match s with
  | EmptyString => EmptyString
  | String c s' => String (upper_ascii c) (ascii_upper s')
  end.

Definition ascii_space (c : ascii) : bool :=
  let n := nat_of_ascii c in
  ((Nat.leb 9 n && Nat.leb n 13) || (Nat.leb 28 n && Nat.leb n 32))%bool.

Fixpoint ascii_lstrip (s : string) : string :=
  match s with
  | EmptyString => EmptyString
  | String c s' => if ascii_space c then ascii_lstrip s' else s
  end.

Fixpoint ascii_rstrip (s : string) : string :=
  match s with
  | EmptyString => EmptyString
  | String c s' =>
      match ascii_rstrip s' with
      | EmptyString => if ascii_space c then EmptyString else String c EmptyString
      | r => String c r
      end
  end.

Definition ascii_strip (s : string) : string := ascii_rstrip (ascii_lstrip s).

(** A runtime and a world to run the tools on.  Its [str_upper] and
    [str_strip] agree with the interpreter on ASCII text, which is all the
    runs below use; its exception texts are short stand-ins. *)
Definition plain_runtime : Runtime :=
  {| exc_str := λ e, match e with
                     | Upstream _ m => m
                     | HTTPError s => pretty s
                     | _ => "error"
                     end;
     container_str := λ _, "[...]";
     str_upper := ascii_upper;
     str_strip := ascii_strip |}.

Definition offline : World :=
  {| http := λ _, inl (Upstream "ConnectionError" "unreachable");
     yf_history := λ _ _, inl (Upstream "ConnectionError" "unreachable") |}.

(** The search service rejects the request (401). *)
Definition unauthorized : World :=
  {| http := λ _, inr {| status_code := 401; text := "Unauthorized";
                         json_body := inl (Upstream "JSONDecodeError" "Expecting value") |};
     yf_history := λ _ _, inl (Upstream "ConnectionError" "unreachable") |}.

(** The exchange-rate service answers with a table of rates. *)
Definition exchange : World :=
  {| http := λ _, inr {| status_code := 200; text := EmptyString;
                         json_body := inr (VDict {[ "rates" :=
                           VDict (<[ "EUR" := VFloat 0.5%float ]>
                                    {[ "XTS" := VInt 0 ]}) ]}) |};
     yf_history := λ _ _, inl (Upstream "ConnectionError" "unreachable") |}.

(** The exchange-rate service answers with an integer rate and with rates
    that are zero: the integer 0, the float 0.0 and the float -0.0. *)
Definition exchange_zeros : World :=
  {| http := λ _, inr {| status_code := 200; text := EmptyString;
                         json_body := inr (VDict {[ "rates" :=
                           VDict (<[ "JPY" := VInt 150 ]>
                                  (<[ "XTS" := VInt 0 ]>
                                   (<[ "XAU" := VFloat 0%float ]>
                                    {[ "XAG" := VFloat neg_zero ]}))) ]}) |};
     yf_history := λ _ _, inl (Upstream "ConnectionError" "unreachable") |}.

(** The exchange-rate service answers without a "rates" table. *)
Definition exchange_down : World :=
  {| http := λ _, inr {| status_code := 200; text := EmptyString;
                         json_body := inr (VDict {[ "result" := VStr "error" ]}) |};
     yf_history := λ _ _, inl (Upstream "ConnectionError" "unreachable") |}.

(** The search service finds two pages, the second without a snippet. *)
Definition two_hits : World :=
  {| http := λ _, inr {| status_code := 200; text := EmptyString;
                         json_body := inr (VDict {[ "results" := VList
                           [ VDict (<[ "title" := VStr "Paris" ]>
                                      {[ "snippet" := VStr "Capital of France" ]});
                             VDict {[ "title" := VStr "France" ]} ] ]}) |};
     yf_history := λ _ _, inl (Upstream "ConnectionError" "unreachable") |}.

(** The weather service answers with one line of text. *)
Definition sunny : World :=
  {| http := λ _, inr {| status_code := 200;
                         text := "Berlin: +7C" +:+ newline;
                         json_body := inl (Upstream "JSONDecodeError" "Expecting value") |};
     yf_history := λ _ _, inl (Upstream "ConnectionError" "unreachable") |}.

(** The finance search knows one symbol; [history] is the price history the
    finance library gives for it. *)
Definition market (history : py_exception + DataFrame) : World :=
  {| http := λ _, inr {| status_code := 200; text := EmptyString;
                         json_body := inr (VDict {[ "quotes" :=
                           VList [VDict {[ "symbol" := VStr "AAPL" ]}] ]}) |};
     yf_history := λ _ _, history |}.

Definition one_day : DataFrame :=
  {| df_rows := 1; df_columns := {[ "Close" := [189.5%float] ]} |}.

Definition no_rows : DataFrame :=
  {| df_rows := 0; df_columns := {[ "Close" := [] ]} |}.

(** A descriptor for [get_weather] and a second one under the same name. *)
Definition weather_tool : Registry.ToolDescriptor :=
  {| Registry.name := "get_weather";
     Registry.description := "Retrieves the current weather for the specified city";
     Registry.parameters :=
       [ {| Registry.param_name := "city"; Registry.param_type := Registry.TString;
            Registry.required := false; Registry.default_value := Some VNone |} ];
     Registry.open_parameters := true;
     Registry.invoke := λ args,
       get_weather (RT := plain_runtime) offline
         (default VNone (args !! "city")) (delete "city" args) |}.

Definition weather_tool_again : Registry.ToolDescriptor :=
  {| Registry.name := "get_weather";
     Registry.description := "Another tool under the same name";
     Registry.parameters := [];
     Registry.open_parameters := false;
     Registry.invoke := λ _, mret (VStr "sunny") |}.

(** ** Shapes of the answers *)

Definition is_dict (v : value) : bool :=
  match v with VDict _ => true | _ => false end.

Section Rendering.

Context `{RT : Runtime}.

(** The lines [web_search] writes for hit number [i]. *)
Definition result_block (i : Z) (hit : gmap string value) : string :=
  "Result " +:+ pretty i +:+ ": "
    +:+ py_str (default (VStr "No Title") (hit !! "title"))
    +:+ newline
    +:+ py_str (default (VStr "No snippet available") (hit !! "snippet"))
    +:+ newline +:+ newline.

(** The blocks of all hits, numbered from [i] on. *)
Fixpoint render_results (i : Z) (hits : list (gmap string value)) : string :=
  match hits with
  | [] => EmptyString
  | hit :: rest => result_block i hit +:+ render_results (i + 1) rest
  end.

(** The line [convert_currency] answers with after a conversion. *)
Definition conversion_line (amount converted : float)
    (from_currency to_currency : string) : string :=
  float_str amount +:+ " " +:+ str_upper from_currency +:+ " = "
    +:+ float_2f converted +:+ " " +:+ str_upper to_currency.

End Rendering.

(** The call raised, or returned a [str] that satisfies [P]. *)
Definition answers (P : string → Prop) (m : M value) : Prop :=
  match result m with
  | Return (VStr s) => P s
  | Return _ => False
  | Raise _ => True
  end.

(** ** More sample worlds *)

Definition answering (status : Z) (body : py_exception + value) : World :=
  {| http := λ _, inr {| status_code := status; text := EmptyString;
                         json_body := body |};
     yf_history := λ _ _, inl (Upstream "ConnectionError" "unreachable") |}.

(** A history with rows but without a "Close" column. *)
Definition no_close : DataFrame :=
  {| df_rows := 1; df_columns := {[ "Open" := [188.0%float] ]} |}.

(** * Properties *)

Section Properties.

Context `{RT : Runtime}.
Variable W : World.


(** C9: when both the [city] parameter and the [location] keyword are
    absent, [None] or the empty string, [get_weather] returns exactly
    "Error: No city provided." and issues no request at all. *)
Theorem get_weather_no_city (city : value) (kwargs : gmap string value) :
  (city = VNone ∨ city = VStr EmptyString) →
  (kwargs !! "location" = None ∨ kwargs !! "location" = Some VNone
   ∨ kwargs !! "location" = Some (VStr EmptyString)) →
  get_weather W city kwargs = (Return (VStr "Error: No city provided."), []).
Proof.
  intros [-> | ->] Hloc; unfold get_weather; cbn; [| reflexivity].
  destruct Hloc as [-> | [-> | ->]]; reflexivity.
Qed.


(** ** Every tool returns a string *)

Lemma sur_bind {A} (m : M A) (k : A → M value) :
  (∀ a, str_unless_raised (k a)) → str_unless_raised (m ≫= k).
Proof.
  intros Hk. destruct m as [[a | e] t]; [| exact I].
  specialize (Hk a). unfold str_unless_raised, result in *.
  cbn. destruct (k a) as [r t']. exact Hk.
Qed.

Lemma sur_ret (s : string) : str_unless_raised (mret (VStr s)).
Proof. exact I. Qed.

Lemma sur_raise (e : py_exception) : str_unless_raised (raise e).
Proof. exact I. Qed.

Lemma returns_str_ret (s : string) : returns_str (mret (VStr s)).
Proof. by exists s. Qed.

Lemma returns_str_try (body : M value) (handler : py_exception → M value) :
  str_unless_raised body →
  (∀ e, returns_str (handler e)) →
  returns_str (try_except body handler).
Proof.
  intros Hb Hh. destruct body as [[v | e] t].
  - destruct v; try contradiction. by eexists.
  - destruct (Hh e) as [s Hs]. exists s.
    unfold result, try_except in *. destruct (handler e) as [r t']. exact Hs.
Qed.

Create HintDb tools.

#[local] Hint Resolve sur_ret sur_raise returns_str_ret : tools.

Ltac sur_step :=
  first
    [ apply sur_ret
    | apply sur_raise
    | apply sur_bind; intros ?
    | match goal with
      | |- str_unless_raised (if ?b then _ else _) => destruct b
      | |- str_unless_raised (match ?x with _ => _ end) => destruct x
      end ].

Lemma convert_currency_returns_str (amount : float) (from_currency to_currency : string) :
  returns_str (convert_currency W amount from_currency to_currency).
Proof.
  apply returns_str_try; [| auto with tools].
  cbv zeta. repeat sur_step.
Qed.



(** ** Traces *)

Lemma trace_bind {A B} (m : M A) (k : A → M B) :
  trace (m ≫= k) =
    trace m ++ match result m with
               | Return a => trace (k a)
               | Raise _ => []
               end.
Proof.
  destruct m as [[a | e] t]; cbn.
  - by destruct (k a).
  - by rewrite app_nil_r.
Qed.

Lemma trace_try {A} (body : M A) (handler : py_exception → M A) :
  trace (try_except body handler) =
    trace body ++ match result body with
                  | Return _ => []
                  | Raise e => trace (handler e)
                  end.
Proof.
  destruct body as [[a | e] t]; cbn.
  - by rewrite app_nil_r.
  - by destruct (handler e).
Qed.

Lemma quiet_bind {A B} (m : M A) (k : A → M B) :
  trace m = [] → (∀ a, trace (k a) = []) → trace (m ≫= k) = [].
Proof.
  intros Hm Hk. rewrite trace_bind, Hm. destruct (result m); [apply Hk | done].
Qed.

Lemma trace_bind_quiet {A B} (m : M A) (k : A → M B) :
  (∀ a, trace (k a) = []) → trace (m ≫= k) = trace m.
Proof.
  intros Hk. rewrite trace_bind.
  destruct (result m); [rewrite Hk |]; apply app_nil_r.
Qed.

Lemma trace_try_quiet {A} (body : M A) (handler : py_exception → M A) :
  (∀ e, trace (handler e) = []) →
  trace (try_except body handler) = trace body.
Proof.
  intros Hh. rewrite trace_try.
  destruct (result body); [| rewrite Hh]; apply app_nil_r.
Qed.

Lemma quiet_lift {A} (r : py_exception + A) : trace (lift r) = [].
Proof. by destruct r. Qed.

Lemma quiet_raise_for_status (resp : response) :
  trace (raise_for_status resp) = [].
Proof. unfold raise_for_status. by destruct (_ && _). Qed.

Lemma quiet_py_get (obj : value) (key : string) (dflt : value) :
  trace (py_get obj key dflt) = [].
Proof. by destruct obj. Qed.

Lemma quiet_py_first (obj : value) : trace (py_first obj) = [].
Proof. destruct obj as [| | | | [] | [] |]; reflexivity. Qed.

Lemma quiet_py_contains (item : string) (obj : value) :
  trace (py_contains item obj) = [].
Proof. by destruct obj. Qed.

Lemma quiet_py_getitem (obj : value) (key : string) :
  trace (py_getitem obj key) = [].
Proof. destruct obj; try reflexivity. cbn. by destruct (_ !! _). Qed.

Lemma quiet_py_iter (obj : value) : trace (py_iter obj) = [].
Proof. by destruct obj. Qed.

Lemma quiet_float_mul (a : float) (v : value) : trace (float_mul a v) = [].
Proof. destruct v; try reflexivity. cbn. by destruct (float_of_int _). Qed.

Lemma quiet_df_column (data : DataFrame) (column : string) :
  trace (df_column data column) = [].
Proof. unfold df_column. by destruct (_ !! _). Qed.

Lemma quiet_iloc_last (series : list float) : trace (iloc_last series) = [].
Proof. unfold iloc_last. by destruct (last _). Qed.

Lemma quiet_format_results (results : list value) (i : Z) (acc : string) :
  trace (format_results results i acc) = [].
Proof.
  revert i acc. induction results as [| r rest IH]; intros i acc; [done |].
  cbn [format_results].
  apply quiet_bind; [apply quiet_py_get | intros title].
  apply quiet_bind; [apply quiet_py_get | intros snippet].
  apply IH.
Qed.

Lemma trace_perform {A} (c : call) (r : py_exception + A) :
  trace (perform c r) = [c].
Proof. by destruct r. Qed.

#[local] Hint Resolve quiet_lift quiet_raise_for_status quiet_py_get
  quiet_py_first quiet_py_contains quiet_py_getitem quiet_py_iter
  quiet_float_mul quiet_df_column quiet_iloc_last quiet_format_results
  : tools.

Ltac quiet :=
  repeat first
    [ reflexivity
    | solve [auto with tools]
    | apply quiet_bind; [| intros ?]
    | match goal with
      | |- trace (if ?b then _ else _) = [] => destruct b
      end ].

(** ** get_ticker *)

Lemma get_ticker_trace (company : string) :
  trace (get_ticker W company) = [Http (ticker_request company)].
Proof.
  unfold get_ticker. cbv zeta.
  rewrite trace_try_quiet by done.
  rewrite trace_bind_quiet by (intros; quiet).
  apply trace_perform.
Qed.

Lemma get_ticker_returns (company : string) :
  ∃ v, result (get_ticker W company) = Return v.
Proof.
  unfold get_ticker.
  match goal with |- context [try_except ?b _] => destruct b as [[v | e] t] end.
  - by exists v.
  - by exists VNone.
Qed.

Lemma get_ticker_run (company : string) :
  ∃ v, get_ticker W company = (Return v, [Http (ticker_request company)]).
Proof.
  destruct (get_ticker_returns company) as [v Hv]. exists v.
  rewrite <- Hv, <- get_ticker_trace. unfold result, trace.
  by destruct (get_ticker W company).
Qed.

Lemma not_error_status (resp : response) :
  ¬ error_status resp →
  (400 <=? status_code resp) && (status_code resp <? 600) = false.
Proof.
  unfold error_status. intros Hst. apply andb_false_iff.
  destruct (Z.leb_spec 400 (status_code resp)); [| by left].
  destruct (Z.ltb_spec (status_code resp) 600); [lia | by right].
Qed.

Lemma is_error_status (resp : response) :
  error_status resp →
  (400 <=? status_code resp) && (status_code resp <? 600) = true.
Proof.
  unfold error_status. intros [H1 H2]. apply andb_true_iff. split.
  - by apply Z.leb_le.
  - by apply Z.ltb_lt.
Qed.

Lemma get_ticker_first_quote (company : string) (resp : response)
    (data fields : gmap string value) (rest : list value) :
  http W (ticker_request company) = inr resp →
  ¬ error_status resp →
  json_body resp = inr (VDict data) →
  data !! "quotes" = Some (VList (VDict fields :: rest)) →
  result (get_ticker W company) = Return (default VNone (fields !! "symbol")).
Proof.
  intros Hresp Hst Hjson Hquotes.
  unfold get_ticker, requests_get, raise_for_status. cbv zeta.
  fold (ticker_request company). rewrite Hresp. cbn.
  rewrite (not_error_status _ Hst).
  cbn. rewrite Hjson. cbn. rewrite Hquotes. reflexivity.
Qed.

Lemma get_ticker_symbol_origin (company : string) (v : value) :
  result (get_ticker W company) = Return v →
  v = VNone ∨
  ∃ resp data fields rest,
    http W (ticker_request company) = inr resp
    ∧ ¬ error_status resp
    ∧ json_body resp = inr (VDict data)
    ∧ data !! "quotes" = Some (VList (VDict fields :: rest))
    ∧ fields !! "symbol" = Some v.
Proof.
  unfold get_ticker, requests_get, raise_for_status. cbv zeta.
  fold (ticker_request company).
  destruct (http W _) as [e | resp] eqn:Hresp; cbn; [intros; simplify_eq; by left |].
  destruct (_ && _) eqn:Hst; cbn; [intros; simplify_eq; by left |].
  destruct (json_body resp) as [e | data] eqn:Hjson; cbn; [intros; simplify_eq; by left |].
  destruct data as [| | | | | | data]; cbn; try (intros; simplify_eq; by left).
  destruct (data !! "quotes") as [quotes |] eqn:Hquotes; cbn;
    [| intros; simplify_eq; by left].
  destruct quotes as [| b | z | f | s | l | d]; cbn;
    try (intros; simplify_eq; by left);
    try (destruct (negb _); cbn; intros; simplify_eq; by left).
  - destruct b; cbn; intros; simplify_eq; by left.
  - destruct s; cbn; intros; simplify_eq; by left.
  - destruct l as [| q rest]; cbn; [intros; simplify_eq; by left |].
    destruct q as [| | | | | | fields]; cbn; try (intros; simplify_eq; by left).
    destruct (fields !! "symbol") as [sym |] eqn:Hsym; cbn;
      [| intros; simplify_eq; by left].
    intros ?; simplify_eq. right. exists resp, data, fields, rest.
    repeat split; try done.
    unfold error_status. intros [H1 H2].
    apply andb_false_iff in Hst as [Hst | Hst].
    + apply Z.leb_gt in Hst. lia.
    + apply Z.ltb_ge in Hst. lia.
Qed.

(** C10: [get_ticker] never raises.  It sends one search request and
    returns a value [v]; [v] is the "symbol" field of the first element of
    the response's "quotes" list whenever the response was decoded and has
    such an element, and [None] in every other case (empty list, absent
    field, failed request, failed decoding). *)
Theorem get_ticker_never_raises (company : string) :
  ∃ v,
    get_ticker W company = (Return v, [Http (ticker_request company)])
    ∧ (∀ resp data fields rest,
         http W (ticker_request company) = inr resp →
         ¬ error_status resp →
         json_body resp = inr (VDict data) →
         data !! "quotes" = Some (VList (VDict fields :: rest)) →
         v = default VNone (fields !! "symbol"))
    ∧ (v = VNone ∨
       ∃ resp data fields rest,
         http W (ticker_request company) = inr resp
         ∧ ¬ error_status resp
         ∧ json_body resp = inr (VDict data)
         ∧ data !! "quotes" = Some (VList (VDict fields :: rest))
         ∧ fields !! "symbol" = Some v).
Proof.
  destruct (get_ticker_run company) as [v Hv]. exists v.
  assert (Hr : result (get_ticker W company) = Return v) by by rewrite Hv.
  split; [exact Hv |]. split.
  - intros resp data fields rest H1 H2 H3 H4.
    rewrite (get_ticker_first_quote company resp data fields rest H1 H2 H3 H4) in Hr.
    by simplify_eq.
  - by apply get_ticker_symbol_origin.
Qed.

(** ** get_stock_price *)

Lemma get_stock_price_unresolved (company : string) (sym : value) :
  get_ticker W company = (Return sym, [Http (ticker_request company)]) →
  truthy sym = false →
  get_stock_price W company =
    (Return (VStr ("Could not find a ticker symbol for " +:+ company +:+ ".")),
     [Http (ticker_request company)]).
Proof.
  intros Ht Hs. unfold get_stock_price. rewrite Ht. cbn. rewrite Hs. reflexivity.
Qed.

Lemma get_stock_price_resolved (company : string) (sym : value) :
  get_ticker W company = (Return sym, [Http (ticker_request company)]) →
  truthy sym = true →
  get_stock_price W company =
    match yf_history W sym "1d" with
    | inl e =>
        (Return (VStr ("Error retrieving stock price for " +:+ company
                       +:+ ": " +:+ exc_str e)),
         [Http (ticker_request company); YfHistory sym "1d"])
    | inr data =>
        if df_empty data
        then (Return (VStr ("Could not retrieve data for " +:+ company +:+ ".")),
              [Http (ticker_request company); YfHistory sym "1d"])
        else
          match df_columns data !! "Close" with
          | None =>
              (Return (VStr ("Error retrieving stock price for " +:+ company
                             +:+ ": " +:+ exc_str (KeyError (VStr "Close")))),
               [Http (ticker_request company); YfHistory sym "1d"])
          | Some close =>
              match last close with
              | None =>
                  (Return (VStr ("Error retrieving stock price for " +:+ company
                                 +:+ ": " +:+ exc_str IndexError)),
                   [Http (ticker_request company); YfHistory sym "1d"])
              | Some price =>
                  (Return (VStr ("The current stock price of " +:+ company
                                 +:+ " (" +:+ py_str sym +:+ ") is $"
                                 +:+ float_2f price)),
                   [Http (ticker_request company); YfHistory sym "1d"])
              end
          end
    end.
Proof.
  intros Ht Hs. unfold get_stock_price. rewrite Ht.
  cbn [mbind M_bind]. rewrite Hs. cbn [negb].
  destruct (yf_history W sym "1d") as [e | data]; [reflexivity |].
  cbn. destruct (df_empty data); [reflexivity |].
  unfold df_column. destruct (_ !! _) as [close |]; [| reflexivity].
  cbn. unfold iloc_last. destruct (last close); reflexivity.
Qed.

(** C7: [get_stock_price] works in two phases.  It first resolves a symbol
    with [get_ticker]; when none is resolved it answers "Could not find a
    ticker symbol for <company>." and asks for no price history.  Otherwise
    it asks for the one-day history of that symbol and answers with the
    last closing price to two decimals, with "Could not retrieve data for
    <company>." when the history is empty, or with an error string when the
    lookup raises. *)
Theorem get_stock_price_two_phases (company : string) :
  ∃ sym,
    get_ticker W company = (Return sym, [Http (ticker_request company)])
    ∧ (truthy sym = false →
         get_stock_price W company =
           (Return (VStr ("Could not find a ticker symbol for "
                          +:+ company +:+ ".")),
            [Http (ticker_request company)]))
    ∧ (truthy sym = true →
         trace (get_stock_price W company) =
           [Http (ticker_request company); YfHistory sym "1d"]
         ∧ (∀ e, yf_history W sym "1d" = inl e →
              result (get_stock_price W company) =
                Return (VStr ("Error retrieving stock price for " +:+ company
                              +:+ ": " +:+ exc_str e)))
         ∧ (∀ data, yf_history W sym "1d" = inr data →
              df_empty data = true →
              result (get_stock_price W company) =
                Return (VStr ("Could not retrieve data for "
                              +:+ company +:+ ".")))
         ∧ (∀ data close price, yf_history W sym "1d" = inr data →
              df_empty data = false →
              df_columns data !! "Close" = Some close →
              last close = Some price →
              result (get_stock_price W company) =
                Return (VStr ("The current stock price of " +:+ company
                              +:+ " (" +:+ py_str sym +:+ ") is $"
                              +:+ float_2f price)))).
Proof.
  destruct (get_ticker_run company) as [sym Ht]. exists sym.
  split; [exact Ht |]. split.
  - by apply get_stock_price_unresolved.
  - intros Hs. rewrite (get_stock_price_resolved company sym Ht Hs).
    repeat split.
    + destruct (yf_history W sym "1d") as [e | data]; [done |].
      destruct (df_empty data); [done |].
      destruct (_ !! _) as [close |]; [| done]. by destruct (last close).
    + by intros e ->.
    + by intros data -> ->.
    + by intros data close price -> -> -> ->.
Qed.



(** ** convert_currency *)

Lemma is_urlopen_ok (resp : response) :
  urlopen_ok resp →
  (200 <=? status_code resp) && (status_code resp <? 300) = true.
Proof.
  unfold urlopen_ok. intros [H1 H2]. apply andb_true_iff. split.
  - by apply Z.leb_le.
  - by apply Z.ltb_lt.
Qed.

Lemma convert_currency_trace (amount : float) (from_currency to_currency : string) :
  trace (convert_currency W amount from_currency to_currency) =
    [Http (rates_request from_currency)].
Proof.
  unfold convert_currency. cbv zeta.
  rewrite trace_try_quiet by done.
  rewrite trace_bind_quiet by (intros; quiet).
  unfold urlopen. cbv zeta.
  rewrite trace_bind_quiet by (intros; quiet).
  apply trace_perform.
Qed.

Lemma convert_currency_no_rates (amount : float)
    (from_currency to_currency : string) (resp : response)
    (data : gmap string value) :
  http W (rates_request from_currency) = inr resp →
  urlopen_ok resp →
  json_body resp = inr (VDict data) →
  data !! "rates" = None →
  result (convert_currency W amount from_currency to_currency) =
    Return (VStr "Error: Could not fetch exchange rates").
Proof.
  intros Hresp Hok Hjson Hrates.
  unfold convert_currency, urlopen. cbv zeta.
  fold (rates_request from_currency). rewrite Hresp. cbn.
  rewrite (is_urlopen_ok _ Hok). cbn. rewrite Hjson. cbn.
  rewrite Hrates. reflexivity.
Qed.

Lemma convert_currency_rates (amount : float)
    (from_currency to_currency : string) (resp : response)
    (data rates : gmap string value) :
  http W (rates_request from_currency) = inr resp →
  urlopen_ok resp →
  json_body resp = inr (VDict data) →
  data !! "rates" = Some (VDict rates) →
  result (convert_currency W amount from_currency to_currency) =
    let rate := default VNone (rates !! str_upper to_currency) in
    if truthy rate
    then match result (float_mul amount rate) with
         | Return converted =>
             Return (VStr (float_str amount +:+ " " +:+ str_upper from_currency
                           +:+ " = " +:+ float_2f converted
                           +:+ " " +:+ str_upper to_currency))
         | Raise e => Return (VStr ("Error converting currency: " +:+ exc_str e))
         end
    else Return (VStr ("Error: No rate found for " +:+ to_currency)).
Proof.
  intros Hresp Hok Hjson Hrates.
  unfold convert_currency, urlopen. cbv zeta.
  fold (rates_request from_currency). rewrite Hresp. cbn.
  rewrite (is_urlopen_ok _ Hok). cbn. rewrite Hjson. cbn.
  rewrite Hrates. cbn.
  destruct (truthy _); [| reflexivity]. cbn.
  destruct (float_mul _ _) as [[c | e] t]; reflexivity.
Qed.

Lemma usable_rate_mul (amount r : float) (rate : value) :
  usable_rate rate = Some r →
  truthy rate = true ∧ result (float_mul amount rate) = Return (amount * r)%float.
Proof.
  unfold usable_rate. destruct rate as [| [] | z | f | | |]; try discriminate.
  - intros ?. by simplify_eq.
  - destruct (truthy _) eqn:Ht; [| discriminate]. intros Hr.
    split; [done |]. cbn. by rewrite Hr.
  - destruct (truthy _) eqn:Ht; [| discriminate]. intros Hr.
    split; [done |]. by simplify_eq.
Qed.

(** C6: [convert_currency] asks for the rates of the uppercased source code
    and returns a string in every case.  When the decoded response is a
    table holding a "rates" table with a usable rate for the uppercased
    target code (a float other than zero, or more generally a number the
    amount can be multiplied by), the string is "<amount> <FROM> =
    <amount*rate to two decimals> <TO>"; when the response has no "rates"
    it is "Error: Could not fetch exchange rates"; when the rates hold
    nothing for the target it is "Error: No rate found for <to_currency>".
    Uppercasing is the interpreter's [str.upper()]. *)
Theorem convert_currency_results (amount : float)
    (from_currency to_currency : string) :
  returns_str (convert_currency W amount from_currency to_currency)
  ∧ trace (convert_currency W amount from_currency to_currency) =
      [Http (rates_request from_currency)]
  ∧ ∀ resp data,
      http W (rates_request from_currency) = inr resp →
      urlopen_ok resp →
      json_body resp = inr (VDict data) →
      (data !! "rates" = None →
         result (convert_currency W amount from_currency to_currency) =
           Return (VStr "Error: Could not fetch exchange rates"))
      ∧ ∀ rates, data !! "rates" = Some (VDict rates) →
          (rates !! str_upper to_currency = None →
             result (convert_currency W amount from_currency to_currency) =
               Return (VStr ("Error: No rate found for " +:+ to_currency)))
          ∧ (∀ r,
               rates !! str_upper to_currency = Some (VFloat r) →
               PrimFloat.eqb r 0%float = false →
               result (convert_currency W amount from_currency to_currency) =
                 Return (VStr (float_str amount +:+ " " +:+ str_upper from_currency
                               +:+ " = " +:+ float_2f (amount * r)%float
                               +:+ " " +:+ str_upper to_currency)))
          ∧ ∀ rate r,
              rates !! str_upper to_currency = Some rate →
              usable_rate rate = Some r →
              result (convert_currency W amount from_currency to_currency) =
                Return (VStr (float_str amount +:+ " " +:+ str_upper from_currency
                              +:+ " = " +:+ float_2f (amount * r)%float
                              +:+ " " +:+ str_upper to_currency)).
Proof.
  split; [apply convert_currency_returns_str |].
  split; [apply convert_currency_trace |].
  intros resp data Hresp Hok Hjson. split.
  - intros Hrates.
    by apply (convert_currency_no_rates _ _ _ resp data).
  - intros rates Hrates.
    rewrite (convert_currency_rates amount from_currency to_currency
               resp data rates Hresp Hok Hjson Hrates).
    split; [| split].
    + by intros ->.
    + intros r -> Hr. cbv zeta. cbn [default from_option id truthy].
      rewrite Hr. reflexivity.
    + intros rate r -> Hr. cbv zeta. cbn [default from_option id].
      destruct (usable_rate_mul amount r rate Hr) as [-> ->]. reflexivity.
Qed.

(** C8: a zero rate counts as a missing one.  When the fetched rates table
    does not hold the uppercased target code, or maps it to the integer 0,
    to the float 0.0 or to the float -0.0, the answer is "Error: No rate
    found for <to_currency>" with the target code as the caller wrote it,
    not uppercased. *)
Theorem convert_currency_zero_rate (amount : float)
    (from_currency to_currency : string) (resp : response)
    (data rates : gmap string value) :
  http W (rates_request from_currency) = inr resp →
  urlopen_ok resp →
  json_body resp = inr (VDict data) →
  data !! "rates" = Some (VDict rates) →
  (rates !! str_upper to_currency = None
   ∨ rates !! str_upper to_currency = Some (VInt 0)
   ∨ rates !! str_upper to_currency = Some (VFloat 0%float)
   ∨ rates !! str_upper to_currency = Some (VFloat neg_zero)) →
  result (convert_currency W amount from_currency to_currency) =
    Return (VStr ("Error: No rate found for " +:+ to_currency)).
Proof.
  intros Hresp Hok Hjson Hrates Hzero.
  rewrite (convert_currency_rates amount from_currency to_currency
             resp data rates Hresp Hok Hjson Hrates).
  cbv zeta. by destruct Hzero as [-> | [-> | [-> | ->]]].
Qed.

(** ** web_search *)

Lemma web_search_trace (G : Globals) (query : string) :
  trace (web_search W G query) = [Http (search_request G query)].
Proof.
  unfold web_search. cbv zeta.
  rewrite trace_try_quiet by done.
  rewrite trace_bind_quiet by (intros; quiet).
  apply trace_perform.
Qed.

Lemma web_search_error_status (G : Globals) (query : string) (resp : response) :
  http W (search_request G query) = inr resp →
  error_status resp →
  result (web_search W G query) =
    Return (VStr ("Error during web search: "
                  +:+ exc_str (HTTPError (status_code resp)))).
Proof.
  intros Hresp Hst. unfold web_search, requests_post, raise_for_status.
  cbv zeta. fold (search_request G query). rewrite Hresp. cbn.
  rewrite (is_error_status _ Hst). reflexivity.
Qed.

(** C3: with TAVILY_API_KEY missing from the environment the module still
    loads (the key is [None]); [web_search] then sends the request without a
    key, and when the service answers with an error status it returns a
    string that contains "Error" instead of raising. *)
Theorem web_search_without_credential (environ : gmap string string) :
  environ !! "TAVILY_API_KEY" = None →
  ∃ G,
    load_module environ = Return G
    ∧ TAVILY_API_KEY G = VNone
    ∧ ∀ query resp,
        http W (search_request G query) = inr resp →
        error_status resp →
        ∃ s, web_search W G query =
               (Return (VStr s), [Http (search_request G query)])
             ∧ substring_of "Error" s = true.
Proof.
  intros Hkey. eexists. split; [reflexivity |].
  unfold os_getenv. rewrite Hkey. split; [reflexivity |].
  intros query resp Hresp Hst. eexists. split.
  - rewrite <- (web_search_error_status _ query resp Hresp Hst).
    rewrite <- (web_search_trace _ query).
    unfold result, trace. by destruct (web_search _ _ _).
  - reflexivity.
Qed.

(** ** Deadlines *)

(** C2 (fails for [convert_currency]): the one request [convert_currency]
    sends carries no deadline at all, so it is not bounded by 5 to 10
    seconds. *)
Theorem convert_currency_sends_no_deadline (amount : float)
    (from_currency to_currency : string) :
  http_requests (trace (convert_currency W amount from_currency to_currency))
    = [rates_request from_currency]
  ∧ timeout (rates_request from_currency) = None
  ∧ forallb has_deadline
      (http_requests
         (trace (convert_currency W amount from_currency to_currency)))
    = false.
Proof.
  rewrite convert_currency_trace. repeat split.
Qed.

(** The other tools do pass a deadline with every request. *)
Lemma other_requests_have_deadlines (G : Globals)
    (city : value) (kwargs : gmap string value) (query company : string) :
  forallb has_deadline (http_requests (trace (get_weather W city kwargs))) = true
  ∧ forallb has_deadline (http_requests (trace (web_search W G query))) = true
  ∧ forallb has_deadline (http_requests (trace (get_ticker W company))) = true
  ∧ forallb has_deadline (http_requests (trace (get_stock_price W company))) = true.
Proof.
  repeat split.
  - destruct (truthy (if is_None city then default VNone (kwargs !! "location")
                      else city)) eqn:Ht.
    + unfold get_weather. cbv zeta. rewrite Ht. cbn [negb].
      rewrite trace_try_quiet by done.
      rewrite trace_bind_quiet by (intros; quiet).
      unfold requests_get. rewrite trace_perform. reflexivity.
    + unfold get_weather. cbv zeta. rewrite Ht. reflexivity.
  - by rewrite web_search_trace.
  - by rewrite get_ticker_trace.
  - destruct (get_ticker_run company) as [sym Ht].
    destruct (truthy sym) eqn:Hs.
    + rewrite (get_stock_price_resolved company sym Ht Hs).
      destruct (yf_history W sym "1d") as [e | data]; [done |].
      destruct (df_empty data); [done |].
      destruct (_ !! _) as [close |]; [| done]. by destruct (last close).
    + by rewrite (get_stock_price_unresolved company sym Ht Hs).
Qed.

(** * Further properties of the tools *)

(** ** Strings *)

Lemma append_cons (x : ascii) (a b : string) :
  String x a +:+ b = String x (a +:+ b).
Proof. reflexivity. Qed.

Lemma append_assoc (a b c : string) : (a +:+ b) +:+ c = a +:+ (b +:+ c).
Proof.
  induction a as [| x a IH]; [done |]. rewrite !append_cons. by f_equal.
Qed.

Lemma prefix_app (n b : string) : String.prefix n (n +:+ b) = true.
Proof.
  induction n as [| c n IH]; [by destruct b |]. rewrite append_cons.
  cbn [String.prefix]. destruct (Ascii.ascii_dec c c); [exact IH | done].
Qed.

Lemma substring_of_here (n b : string) : substring_of n (n +:+ b) = true.
Proof.
  destruct (n +:+ b) eqn:Hnb; cbn [substring_of]; rewrite <- Hnb, prefix_app; done.
Qed.

Lemma substring_of_app (a n b : string) : substring_of n (a +:+ n +:+ b) = true.
Proof.
  induction a as [| c a IH]; [exact (substring_of_here n b) |].
  rewrite append_cons. cbn [substring_of]. rewrite IH. apply orb_true_r.
Qed.

(** ** get_weather *)

(** X1: a [city] argument that is not [None] decides alone: the keyword
    arguments are not looked at, so an empty [city] is rejected even when a
    [location] is given. *)
Theorem get_weather_city_precedence (city : value)
    (kwargs kwargs' : gmap string value) :
  city ≠ VNone →
  get_weather W city kwargs = get_weather W city kwargs'
  ∧ (city = VStr EmptyString →
       get_weather W city kwargs
         = (Return (VStr "Error: No city provided."), [])).
Proof.
  intros Hcity. split.
  - unfold get_weather. by destruct city.
  - by intros ->.
Qed.


(** ** web_search *)

Lemma append_empty_r (a : string) : a +:+ EmptyString = a.
Proof. induction a as [| x a IH]; [done |]. rewrite append_cons. by f_equal. Qed.

Lemma ret_bind {A B} (a : A) (k : A → M B) : mret a ≫= k = k a.
Proof. unfold mret, M_ret, mbind, M_bind. by destruct (k a). Qed.

Lemma format_results_dicts (hits : list (gmap string value)) (i : Z)
    (acc : string) :
  format_results (VDict <$> hits) i acc
    = (Return (acc +:+ render_results i hits), []).
Proof.
  revert i acc. induction hits as [| hit rest IH]; intros i acc.
  - cbn [fmap list_fmap format_results render_results].
    by rewrite append_empty_r.
  - cbn [fmap list_fmap format_results render_results py_get].
    rewrite !ret_bind. fold (result_block i hit).
    rewrite IH. by rewrite append_assoc.
Qed.

Lemma format_results_malformed (items : list value) (i : Z) (acc : string) :
  existsb (λ v, negb (is_dict v)) items = true →
  format_results items i acc = (Raise (AttributeError "get"), []).
Proof.
  revert i acc. induction items as [| v rest IH]; intros i acc Hbad;
    [discriminate |].
  destruct v; try reflexivity.
  cbn [existsb is_dict negb orb] in Hbad.
  cbn [format_results py_get]. rewrite !ret_bind.
  exact (IH _ _ Hbad).
Qed.

Lemma result_bind {A B} (m : M A) (k : A → M B) :
  result (m ≫= k) =
    match result m with
    | Return a => result (k a)
    | Raise e => Raise e
    end.
Proof. destruct m as [[a | e] t]; cbn; [| done]. by destruct (k a). Qed.

Lemma result_try {A} (body : M A) (handler : py_exception → M A) :
  result (try_except body handler) =
    match result body with
    | Return a => Return a
    | Raise e => result (handler e)
    end.
Proof. destruct body as [[a | e] t]; cbn; [done |]. by destruct (handler e). Qed.

Lemma run_eq {A} (m : M A) : m = (result m, trace m).
Proof. by destruct m. Qed.

Lemma web_search_decoded (G : Globals) (query : string) (resp : response)
    (data : gmap string value) :
  http W (search_request G query) = inr resp →
  ¬ error_status resp →
  json_body resp = inr (VDict data) →
  result (web_search W G query) =
    let results := default (VList []) (data !! "results") in
    if truthy results
    then
      match result (py_iter results
                    ≫= (λ items, format_results items 1 EmptyString)) with
      | Return formatted => Return (VStr (str_strip formatted))
      | Raise e => Return (VStr ("Error during web search: " +:+ exc_str e))
      end
    else Return (VStr "No results found.").
Proof.
  intros Hresp Hst Hjson.
  unfold web_search, requests_post, raise_for_status. cbv zeta.
  fold (search_request G query). rewrite Hresp.
  rewrite result_try, result_bind. cbn [perform result fst].
  rewrite result_bind, (not_error_status _ Hst). cbn [mret M_ret result fst].
  rewrite result_bind, Hjson. cbn [lift mret M_ret result fst].
  rewrite result_bind. cbn [py_get mret M_ret result fst].
  destruct (truthy _); cbn [negb]; [| reflexivity].
  rewrite !result_bind.
  destruct (result (py_iter _)) as [items | e]; [| reflexivity].
  rewrite result_bind.
  destruct (result (format_results _ _ _)); reflexivity.
Qed.

(** X3: when the search service answers with a JSON object that has no
    "results", or whose "results" are empty or null, [web_search] answers
    "No results found.". *)
Theorem web_search_no_results (G : Globals) (query : string)
    (resp : response) (data : gmap string value) :
  http W (search_request G query) = inr resp →
  ¬ error_status resp →
  json_body resp = inr (VDict data) →
  truthy (default (VList []) (data !! "results")) = false →
  web_search W G query
    = (Return (VStr "No results found."), [Http (search_request G query)]).
Proof.
  intros Hresp Hst Hjson Hnone.
  rewrite (run_eq (web_search W G query)), web_search_trace.
  rewrite (web_search_decoded G query resp data Hresp Hst Hjson).
  cbv zeta. by rewrite Hnone.
Qed.

(** X4: when the "results" are a non-empty list of JSON objects,
    [web_search] answers with one block per hit, in order and numbered from
    1: "Result i: <title>", the snippet, and an empty line, with "No Title"
    and "No snippet available" standing in for a missing field; the whole
    text is then passed through [str.strip()]. *)
Theorem web_search_lists_hits (G : Globals) (query : string)
    (resp : response) (data : gmap string value)
    (hits : list (gmap string value)) :
  http W (search_request G query) = inr resp →
  ¬ error_status resp →
  json_body resp = inr (VDict data) →
  data !! "results" = Some (VList (VDict <$> hits)) →
  hits ≠ [] →
  result (web_search W G query)
    = Return (VStr (str_strip (render_results 1 hits))).
Proof.
  intros Hresp Hst Hjson Hresults Hhits.
  rewrite (web_search_decoded G query resp data Hresp Hst Hjson).
  cbv zeta. rewrite Hresults. cbn [default from_option id].
  assert (truthy (VList (VDict <$> hits)) = true) as ->
    by (by destruct hits).
  cbn [py_iter]. rewrite ret_bind, format_results_dicts. reflexivity.
Qed.

(** X5: one hit that is not a JSON object spoils the whole answer: whatever
    the other hits are, [web_search] answers with the error string of the
    failed field lookup and none of the hits. *)
Theorem web_search_malformed_hit (G : Globals) (query : string)
    (resp : response) (data : gmap string value) (items : list value) :
  http W (search_request G query) = inr resp →
  ¬ error_status resp →
  json_body resp = inr (VDict data) →
  data !! "results" = Some (VList items) →
  existsb (λ v, negb (is_dict v)) items = true →
  result (web_search W G query)
    = Return (VStr ("Error during web search: "
                    +:+ exc_str (AttributeError "get"))).
Proof.
  intros Hresp Hst Hjson Hresults Hbad.
  rewrite (web_search_decoded G query resp data Hresp Hst Hjson).
  cbv zeta. rewrite Hresults. cbn [default from_option id].
  assert (truthy (VList items) = true) as ->
    by (destruct items; [discriminate | done]).
  cbn [py_iter].
  rewrite ret_bind, (format_results_malformed items 1 EmptyString Hbad).
  reflexivity.
Qed.

(** X6: the key read from the environment at start-up and the query travel
    in the JSON body of the request: whatever the outcome, [web_search]
    sends exactly one POST to the search URL, with a 10 second deadline,
    whose body holds that key, the query, depth "advanced" and at most 4
    results. *)
Theorem web_search_sends_key_and_query (environ : gmap string string)
    (key query : string) :
  environ !! "TAVILY_API_KEY" = Some key →
  ∃ G payload,
    load_module environ = Return G
    ∧ trace (web_search W G query)
      = [Http {| via := Requests; method := POST;
                 url := "https://api.tavily.com/search"; headers := [];
                 json := Some (VDict payload); timeout := Some 10 |}]
    ∧ payload !! "api_key" = Some (VStr key)
    ∧ payload !! "query" = Some (VStr query)
    ∧ payload !! "search_depth" = Some (VStr "advanced")
    ∧ payload !! "max_results" = Some (VInt 4).
Proof.
  intros Hkey. eexists. eexists. split; [reflexivity |].
  split; [apply web_search_trace |].
  cbn [list_to_map foldr TAVILY_API_KEY]. unfold os_getenv. rewrite Hkey.
  repeat split; by simplify_map_eq.
Qed.

(** ** convert_currency *)

Lemma not_urlopen_ok (resp : response) :
  ¬ urlopen_ok resp →
  (200 <=? status_code resp) && (status_code resp <? 300) = false.
Proof.
  unfold urlopen_ok. intros Hst. apply andb_false_iff.
  destruct (Z.leb_spec 200 (status_code resp)); [| by left].
  destruct (Z.ltb_spec (status_code resp) 300); [lia | by right].
Qed.

(** X7: when the rates cannot be fetched, [convert_currency] answers
    "Error converting currency: " and the text of the exception: the one
    the request raised, the HTTP error for a status outside 2xx (the body of
    such a response is not read), or the one decoding the body raised. *)
Theorem convert_currency_fetch_failure (amount : float)
    (from_currency to_currency : string) :
  (∀ e, http W (rates_request from_currency) = inl e →
     result (convert_currency W amount from_currency to_currency)
       = Return (VStr ("Error converting currency: " +:+ exc_str e)))
  ∧ (∀ resp, http W (rates_request from_currency) = inr resp →
       ¬ urlopen_ok resp →
       result (convert_currency W amount from_currency to_currency)
         = Return (VStr ("Error converting currency: "
                         +:+ exc_str (HTTPError (status_code resp)))))
  ∧ (∀ resp e, http W (rates_request from_currency) = inr resp →
       urlopen_ok resp →
       json_body resp = inl e →
       result (convert_currency W amount from_currency to_currency)
         = Return (VStr ("Error converting currency: " +:+ exc_str e))).
Proof.
  unfold convert_currency, urlopen. cbv zeta.
  fold (rates_request from_currency).
  split; [| split].
  - intros e ->. reflexivity.
  - intros resp -> Hst. rewrite result_try, !result_bind.
    cbn [perform result fst]. by rewrite (not_urlopen_ok _ Hst).
  - intros resp e -> Hst Hjson. rewrite result_try, !result_bind.
    cbn [perform result fst]. rewrite (is_urlopen_ok _ Hst).
    cbn [mret M_ret result fst]. rewrite result_bind, Hjson. reflexivity.
Qed.

(** X8: currency codes are read without regard to case.  Two calls whose
    codes agree once uppercased send the same request and give the same
    answer, except that "Error: No rate found for ..." names the target
    code as each caller wrote it. *)
Theorem convert_currency_ignores_case (amount : float)
    (from_currency to_currency from_currency' to_currency' : string) :
  str_upper from_currency = str_upper from_currency' →
  str_upper to_currency = str_upper to_currency' →
  trace (convert_currency W amount from_currency to_currency)
    = trace (convert_currency W amount from_currency' to_currency')
  ∧ (result (convert_currency W amount from_currency to_currency)
       = result (convert_currency W amount from_currency' to_currency')
     ∨ (result (convert_currency W amount from_currency to_currency)
          = Return (VStr ("Error: No rate found for " +:+ to_currency))
        ∧ result (convert_currency W amount from_currency' to_currency')
          = Return (VStr ("Error: No rate found for " +:+ to_currency')))).
Proof.
  intros Hfrom Hto. split.
  - rewrite !convert_currency_trace. unfold rates_request. by rewrite Hfrom.
  - unfold convert_currency, urlopen. cbv zeta. rewrite Hfrom, Hto.
    rewrite !result_try, !result_bind.
    destruct (result (perform _ _)) as [resp | e]; [| by left].
    destruct (_ && _); [| by left]. cbn [mret M_ret result fst].
    rewrite !result_bind.
    destruct (result (lift _)) as [data | e]; [| by left].
    rewrite !result_bind.
    destruct (result (py_contains _ _)) as [[] | e]; cbn [negb];
      [| by left | by left].
    rewrite !result_bind.
    destruct (result (py_getitem _ _)) as [rates | e]; [| by left].
    rewrite !result_bind.
    destruct (result (py_get _ _ _)) as [rate | e]; [| by left].
    destruct (truthy rate); cbn [negb]; [by left | by right].
Qed.

(** X9: a rate that is present and not false yet cannot be multiplied (a
    string, a list, an object, an integer too large for a float) makes
    [convert_currency] answer "Error converting currency: " with the text
    of the TypeError or OverflowError. *)
Theorem convert_currency_unusable_rate (amount : float)
    (from_currency to_currency : string) (resp : response)
    (data rates : gmap string value) (rate : value) :
  http W (rates_request from_currency) = inr resp →
  urlopen_ok resp →
  json_body resp = inr (VDict data) →
  data !! "rates" = Some (VDict rates) →
  rates !! str_upper to_currency = Some rate →
  truthy rate = true →
  usable_rate rate = None →
  ∃ e,
    (e = TypeError "*" ∨ e = OverflowError)
    ∧ result (convert_currency W amount from_currency to_currency)
      = Return (VStr ("Error converting currency: " +:+ exc_str e)).
Proof.
  intros Hresp Hok Hjson Hrates Hrate Ht Hu.
  rewrite (convert_currency_rates amount from_currency to_currency
             resp data rates Hresp Hok Hjson Hrates).
  cbv zeta. rewrite Hrate. cbn [default from_option id]. rewrite Ht.
  destruct rate as [| b | z | f | s | l | d]; try discriminate.
  - destruct b; discriminate.
  - unfold usable_rate in Hu. rewrite Ht in Hu.
    exists OverflowError. split; [by right |]. cbn. by rewrite Hu.
  - unfold usable_rate in Hu. rewrite Ht in Hu. discriminate.
  - exists (TypeError "*"). split; [by left | reflexivity].
  - exists (TypeError "*"). split; [by left | reflexivity].
  - exists (TypeError "*"). split; [by left | reflexivity].
Qed.

(** X10: when the response has "rates" but they are not a table,
    [convert_currency] answers "Error converting currency: " with the text
    of the failed attribute lookup. *)
Theorem convert_currency_rates_not_table (amount : float)
    (from_currency to_currency : string) (resp : response)
    (data : gmap string value) (rates : value) :
  http W (rates_request from_currency) = inr resp →
  urlopen_ok resp →
  json_body resp = inr (VDict data) →
  data !! "rates" = Some rates →
  is_dict rates = false →
  result (convert_currency W amount from_currency to_currency)
    = Return (VStr ("Error converting currency: "
                    +:+ exc_str (AttributeError "get"))).
Proof.
  intros Hresp Hok Hjson Hrates Hnd.
  unfold convert_currency, urlopen. cbv zeta.
  fold (rates_request from_currency). rewrite Hresp. cbn.
  rewrite (is_urlopen_ok _ Hok). cbn. rewrite Hjson. cbn.
  rewrite Hrates. cbn.
  destruct rates; try reflexivity. discriminate.
Qed.

(** ** Answer shapes *)

Lemma answers_bind {A} (P : string → Prop) (m : M A) (k : A → M value) :
  (∀ a, answers P (k a)) → answers P (m ≫= k).
Proof.
  intros Hk. unfold answers. rewrite result_bind.
  destruct (result m) as [a | e]; [apply Hk | exact I].
Qed.

Lemma answers_try (P : string → Prop) (body : M value)
    (handler : py_exception → M value) :
  answers P body →
  (∀ e, ∃ s, result (handler e) = Return (VStr s) ∧ P s) →
  ∃ s, result (try_except body handler) = Return (VStr s) ∧ P s.
Proof.
  unfold answers. intros Hb Hh. rewrite result_try.
  destruct (result body) as [v | e]; [| apply Hh].
  destruct v; try contradiction. eauto.
Qed.

(** X11: every answer of [convert_currency] either begins with "Error" or
    is a conversion line "<amount> <FROM> = <value to two decimals> <TO>"
    for the uppercased codes. *)
Theorem convert_currency_answer_shape (amount : float)
    (from_currency to_currency : string) :
  ∃ s,
    result (convert_currency W amount from_currency to_currency)
      = Return (VStr s)
    ∧ (String.prefix "Error" s = true
       ∨ ∃ converted,
           s = conversion_line amount converted from_currency to_currency).
Proof.
  apply answers_try.
  - cbv zeta.
    repeat first
      [ apply answers_bind; intros ?
      | match goal with
        | |- answers _ (if ?b then _ else _) => destruct b
        end ].
    + left. reflexivity.
    + left. reflexivity.
    + right. eexists. reflexivity.
  - intros e. eexists. split; [reflexivity |]. left. reflexivity.
Qed.

(** ** get_weather, failures *)


(** ** get_stock_price, failures *)

Lemma get_ticker_search_failed (company : string) :
  match http W (ticker_request company) with
  | inl _ => True
  | inr resp => error_status resp ∨ ∃ e, json_body resp = inl e
  end →
  result (get_ticker W company) = Return VNone.
Proof.
  unfold get_ticker, requests_get, raise_for_status. cbv zeta.
  fold (ticker_request company).
  destruct (http W _) as [e | resp]; [reflexivity |].
  rewrite result_try, !result_bind. cbn [perform result fst].
  intros [Hst | [e He]].
  - by rewrite (is_error_status _ Hst).
  - destruct (_ && _); [reflexivity |]. cbn [mret M_ret result fst].
    rewrite result_bind, He. reflexivity.
Qed.

(** X13: a failed symbol search is reported as an unknown company.  When
    the search request raises, is answered with a 4xx or 5xx status, or has
    a body that cannot be decoded, [get_stock_price] answers "Could not find
    a ticker symbol for <company>." and asks for no price history; the text
    of the failure is dropped. *)
Theorem get_stock_price_search_failed (company : string) :
  match http W (ticker_request company) with
  | inl _ => True
  | inr resp => error_status resp ∨ ∃ e, json_body resp = inl e
  end →
  get_stock_price W company
    = (Return (VStr ("Could not find a ticker symbol for "
                     +:+ company +:+ ".")),
       [Http (ticker_request company)]).
Proof.
  intros Hfail. apply (get_stock_price_unresolved company VNone); [| done].
  rewrite (run_eq (get_ticker W company)), get_ticker_trace.
  by rewrite (get_ticker_search_failed company Hfail).
Qed.

(** X14: a price history that has rows but no "Close" column makes
    [get_stock_price] answer "Error retrieving stock price for <company>: "
    with the text of the KeyError. *)
Theorem get_stock_price_missing_close (company : string) (sym : value)
    (data : DataFrame) :
  result (get_ticker W company) = Return sym →
  truthy sym = true →
  yf_history W sym "1d" = inr data →
  df_empty data = false →
  df_columns data !! "Close" = None →
  get_stock_price W company
    = (Return (VStr ("Error retrieving stock price for " +:+ company
                     +:+ ": " +:+ exc_str (KeyError (VStr "Close")))),
       [Http (ticker_request company); YfHistory sym "1d"]).
Proof.
  intros Hsym Ht Hdata Hne Hclose.
  assert (Hrun : get_ticker W company
                 = (Return sym, [Http (ticker_request company)])).
  { by rewrite (run_eq (get_ticker W company)), get_ticker_trace, Hsym. }
  rewrite (get_stock_price_resolved company sym Hrun Ht).
  by rewrite Hdata, Hne, Hclose.
Qed.

(** X15: every answer of [get_stock_price] names the company it was asked
    about, as the caller wrote it. *)
Theorem get_stock_price_names_company (company : string) :
  ∃ s,
    result (get_stock_price W company) = Return (VStr s)
    ∧ substring_of company s = true.
Proof.
  destruct (get_ticker_run company) as [sym Ht].
  destruct (truthy sym) eqn:Hs.
  - rewrite (get_stock_price_resolved company sym Ht Hs).
    destruct (yf_history W sym "1d") as [e | data];
      [eexists; split; [reflexivity | apply substring_of_app] |].
    destruct (df_empty data);
      [eexists; split; [reflexivity | apply substring_of_app] |].
    destruct (_ !! _) as [close |];
      [| eexists; split; [reflexivity | apply substring_of_app]].
    destruct (last close);
      eexists; (split; [reflexivity | apply substring_of_app]).
  - rewrite (get_stock_price_unresolved company sym Ht Hs).
    eexists. split; [reflexivity | apply substring_of_app].
Qed.

(** ** Number of external calls *)

Lemma get_weather_trace (city : value) (kwargs : gmap string value) :
  trace (get_weather W city kwargs) = []
  ∨ ∃ c, trace (get_weather W city kwargs) = [Http (weather_request c)].
Proof.
  unfold get_weather. cbv zeta.
  destruct (truthy _) eqn:Ht; cbn [negb]; [| by left].
  right. eexists.
  rewrite trace_try_quiet by done.
  rewrite trace_bind_quiet by (intros; quiet).
  unfold requests_get. rewrite trace_perform. reflexivity.
Qed.

(** X16: no tool repeats a call.  [convert_currency] and [web_search] make
    exactly one request, [get_weather] at most one, and [get_stock_price]
    one search request followed by at most one history lookup. *)
Theorem tools_call_budget (G : Globals) (amount : float)
    (from_currency to_currency : string) (city : value)
    (kwargs : gmap string value) (query company : string) :
  length (trace (convert_currency W amount from_currency to_currency)) = 1%nat
  ∧ (length (trace (get_weather W city kwargs)) ≤ 1)%nat
  ∧ length (trace (web_search W G query)) = 1%nat
  ∧ (trace (get_stock_price W company) = [Http (ticker_request company)]
     ∨ ∃ sym, trace (get_stock_price W company)
              = [Http (ticker_request company); YfHistory sym "1d"]).
Proof.
  split; [by rewrite convert_currency_trace |].
  split.
  { destruct (get_weather_trace city kwargs) as [-> | [c ->]]; cbn; lia. }
  split; [by rewrite web_search_trace |].
  destruct (get_ticker_run company) as [sym Ht].
  destruct (truthy sym) eqn:Hs.
  - right. exists sym. rewrite (get_stock_price_resolved company sym Ht Hs).
    destruct (yf_history W sym "1d") as [e | data]; [done |].
    destruct (df_empty data); [done |].
    destruct (_ !! _) as [close |]; [| done]. by destruct (last close).
  - left. by rewrite (get_stock_price_unresolved company sym Ht Hs).
Qed.

(** ** web_search, failures *)

(** X17: when the search cannot be completed, [web_search] answers "Error
    during web search: " and the text of the exception: the one the request
    raised, the HTTP error of a 4xx or 5xx status, the one decoding the body
    raised, or the failed field lookup when the decoded body is not a JSON
    object. *)
Theorem web_search_failure (G : Globals) (query : string) :
  (∀ e, http W (search_request G query) = inl e →
     result (web_search W G query)
       = Return (VStr ("Error during web search: " +:+ exc_str e)))
  ∧ (∀ resp, http W (search_request G query) = inr resp →
       error_status resp →
       result (web_search W G query)
         = Return (VStr ("Error during web search: "
                         +:+ exc_str (HTTPError (status_code resp)))))
  ∧ (∀ resp e, http W (search_request G query) = inr resp →
       ¬ error_status resp →
       json_body resp = inl e →
       result (web_search W G query)
         = Return (VStr ("Error during web search: " +:+ exc_str e)))
  ∧ (∀ resp body, http W (search_request G query) = inr resp →
       ¬ error_status resp →
       json_body resp = inr body →
       is_dict body = false →
       result (web_search W G query)
         = Return (VStr ("Error during web search: "
                         +:+ exc_str (AttributeError "get")))).
Proof.
  split; [| split; [| split]].
  - intros e He. unfold web_search, requests_post. cbv zeta.
    fold (search_request G query). by rewrite He.
  - intros resp. apply web_search_error_status.
  - intros resp e Hresp Hst Hjson.
    unfold web_search, requests_post, raise_for_status. cbv zeta.
    fold (search_request G query). rewrite Hresp.
    rewrite result_try, result_bind. cbn [perform result fst].
    rewrite result_bind, (not_error_status _ Hst). cbn [mret M_ret result fst].
    by rewrite result_bind, Hjson.
  - intros resp body Hresp Hst Hjson Hnd.
    unfold web_search, requests_post, raise_for_status. cbv zeta.
    fold (search_request G query). rewrite Hresp.
    rewrite result_try, result_bind. cbn [perform result fst].
    rewrite result_bind, (not_error_status _ Hst). cbn [mret M_ret result fst].
    rewrite result_bind, Hjson. cbn [lift mret M_ret result fst].
    rewrite result_bind. destruct body; try reflexivity. discriminate.
Qed.

End Properties.

Lemma get_weather_no_city_witness :
  get_weather (RT := plain_runtime) offline (VStr EmptyString)
    {[ "location" := VNone ]}
  = (Return (VStr "Error: No city provided."), []).
Proof.
  apply (get_weather_no_city (RT := plain_runtime) offline).
  - right. reflexivity.
  - right. left. vm_compute. reflexivity.
Defined.


(** ** Tool registry *)

(** C4: registering a second tool under a name already taken fails with
    DuplicateToolError, a configuration error, and leaves the registry as it
    was: it still holds the first descriptor under that name, and when the
    first registration went into an empty registry, that descriptor is all
    it holds. *)
Theorem register_duplicate_rejected (r r1 : Registry.ToolRegistry)
    (d1 d2 : Registry.ToolDescriptor) :
  Registry.register d1 r = (inr tt, r1) →
  Registry.name d2 = Registry.name d1 →
  Registry.register d2 r1
    = (inl (Registry.DuplicateToolError (Registry.name d1)), r1)
  ∧ Registry.get (Registry.name d1) r1 = inr d1
  ∧ Registry.entries r1 = <[Registry.name d1 := d1]> (Registry.entries r)
  ∧ (r = Registry.empty →
       Registry.entries r1 = {[ Registry.name d1 := d1 ]}
       ∧ Registry.listSchemas r1 = [d1]).
Proof.
  unfold Registry.register, Registry.get. intros Hreg Hname.
  destruct (Registry.entries r !! Registry.name d1) eqn:Hfree; [discriminate |].
  injection Hreg as <-. cbn. rewrite Hname, lookup_insert_eq.
  do 3 (split; [reflexivity |]). intros ->. cbn. split.
  - apply insert_empty.
  - unfold Registry.listSchemas. cbn. by rewrite lookup_insert_eq.
Qed.

(** * Runs *)

Example float_text :
  map (λ x, (float_str x, float_2f x))
      [100%float; 0.5%float; 189.5%float; 0.125%float; 1e16%float; (-2.5)%float]
  = [("100.0", "100.00"); ("0.5", "0.50"); ("189.5", "189.50");
     ("0.125", "0.12"); ("1e+16", "10000000000000000.00"); ("-2.5", "-2.50")].
Proof. vm_compute. reflexivity. Qed.

Example float_of_int_range :
  float_of_int (2 ^ 53 + 1) = Some 9007199254740992%float
  ∧ float_of_int (2 ^ 1024) = None.
Proof. vm_compute. split; reflexivity. Qed.

Example string_ops :
  ascii_upper "usd" = "USD"
  ∧ ascii_strip ("  Berlin: +7C " +:+ newline) = "Berlin: +7C"
  ∧ substring_of "rates" "exchange rates" = true.
Proof. vm_compute. repeat split. Qed.

Example get_weather_run :
  get_weather (RT := plain_runtime) sunny (VStr "Berlin") ∅
  = (Return (VStr "Berlin: +7C"),
     [Http (weather_request (RT := plain_runtime) (VStr "Berlin"))]).
Proof. vm_compute. reflexivity. Qed.

Example web_search_run :
  result (web_search (RT := plain_runtime) two_hits
            {| TAVILY_API_KEY := VStr "tvly-key" |} "capital of France")
  = Return (VStr ("Result 1: Paris" +:+ newline +:+ "Capital of France"
                  +:+ newline +:+ newline
                  +:+ "Result 2: France" +:+ newline +:+ "No snippet available")).
Proof. vm_compute. reflexivity. Qed.

Example convert_currency_unreachable :
  convert_currency (RT := plain_runtime) offline 100%float "usd" "eur"
  = (Return (VStr "Error converting currency: unreachable"),
     [Http (rates_request (RT := plain_runtime) "usd")]).
Proof. vm_compute. reflexivity. Qed.

Lemma register_duplicate_rejected_witness :
  Registry.register weather_tool_again
      (snd (Registry.register weather_tool Registry.empty))
    = (inl (Registry.DuplicateToolError "get_weather"),
       snd (Registry.register weather_tool Registry.empty))
  ∧ Registry.listSchemas (snd (Registry.register weather_tool Registry.empty))
    = [weather_tool].
Proof.
  destruct (register_duplicate_rejected Registry.empty
              (snd (Registry.register weather_tool Registry.empty))
              weather_tool weather_tool_again eq_refl eq_refl)
    as (Hdup & _ & _ & Hall).
  split; [exact Hdup |]. exact (proj2 (Hall eq_refl)).
Defined.

Lemma get_ticker_never_raises_witness :
  get_ticker (market (inr one_day)) "Apple"
  = (Return (VStr "AAPL"), [Http (ticker_request "Apple")]).
Proof.
  destruct (get_ticker_never_raises (market (inr one_day)) "Apple")
    as (v & Hrun & Hfirst & _).
  rewrite Hrun. f_equal. f_equal.
  refine (Hfirst _ _ {[ "symbol" := VStr "AAPL" ]} [] eq_refl _ eq_refl _).
  - unfold error_status. cbn. lia.
  - vm_compute. reflexivity.
Defined.

Lemma get_stock_price_two_phases_witness :
  get_stock_price (RT := plain_runtime) offline "Apple"
    = (Return (VStr "Could not find a ticker symbol for Apple."),
       [Http (ticker_request "Apple")])
  ∧ result (get_stock_price (RT := plain_runtime) (market (inr one_day)) "Apple")
    = Return (VStr "The current stock price of Apple (AAPL) is $189.50")
  ∧ result (get_stock_price (RT := plain_runtime) (market (inr no_rows)) "Apple")
    = Return (VStr "Could not retrieve data for Apple.")
  ∧ result (get_stock_price (RT := plain_runtime)
              (market (inl (Upstream "ConnectionError" "unreachable"))) "Apple")
    = Return (VStr "Error retrieving stock price for Apple: unreachable").
Proof.
  split; [| split; [| split]].
  - destruct (get_stock_price_two_phases (RT := plain_runtime) offline "Apple")
      as (sym & Ht & Hnone & _).
    apply Hnone. vm_compute in Ht. by simplify_eq.
  - destruct (get_stock_price_two_phases (RT := plain_runtime)
                (market (inr one_day)) "Apple") as (sym & Ht & _ & Hsome).
    vm_compute in Ht. simplify_eq.
    destruct (Hsome eq_refl) as (_ & _ & _ & Hprice).
    apply (Hprice one_day [189.5%float] 189.5%float eq_refl eq_refl);
      vm_compute; reflexivity.
  - destruct (get_stock_price_two_phases (RT := plain_runtime)
                (market (inr no_rows)) "Apple") as (sym & Ht & _ & Hsome).
    vm_compute in Ht. simplify_eq.
    destruct (Hsome eq_refl) as (_ & _ & Hempty & _).
    apply (Hempty no_rows eq_refl). reflexivity.
  - destruct (get_stock_price_two_phases (RT := plain_runtime)
                (market (inl (Upstream "ConnectionError" "unreachable"))) "Apple")
      as (sym & Ht & _ & Hsome).
    vm_compute in Ht. simplify_eq.
    destruct (Hsome eq_refl) as (_ & Hraise & _).
    apply (Hraise _ eq_refl).
Defined.

Lemma convert_currency_results_witness :
  result (convert_currency (RT := plain_runtime) exchange 100%float "usd" "eur")
    = Return (VStr "100.0 USD = 50.00 EUR")
  ∧ result (convert_currency (RT := plain_runtime) exchange_zeros 100%float "usd" "jpy")
    = Return (VStr "100.0 USD = 15000.00 JPY")
  ∧ result (convert_currency (RT := plain_runtime) exchange 100%float "usd" "jpy")
    = Return (VStr "Error: No rate found for jpy")
  ∧ result (convert_currency (RT := plain_runtime) exchange_down 100%float "usd" "eur")
    = Return (VStr "Error: Could not fetch exchange rates").
Proof.
  split; [| split; [| split]].
  - destruct (convert_currency_results (RT := plain_runtime) exchange
                100%float "usd" "eur") as (_ & _ & Hfetched).
    destruct (Hfetched _ _ eq_refl ltac:(unfold urlopen_ok; cbn; lia) eq_refl)
      as [_ Hrates].
    destruct (Hrates _ ltac:(vm_compute; reflexivity)) as (_ & Hfloat & _).
    apply (Hfloat 0.5%float); vm_compute; reflexivity.
  - destruct (convert_currency_results (RT := plain_runtime) exchange_zeros
                100%float "usd" "jpy") as (_ & _ & Hfetched).
    destruct (Hfetched _ _ eq_refl ltac:(unfold urlopen_ok; cbn; lia) eq_refl)
      as [_ Hrates].
    destruct (Hrates _ ltac:(vm_compute; reflexivity)) as (_ & _ & Hrate).
    apply (Hrate (VInt 150) 150%float); vm_compute; reflexivity.
  - destruct (convert_currency_results (RT := plain_runtime) exchange
                100%float "usd" "jpy") as (_ & _ & Hfetched).
    destruct (Hfetched _ _ eq_refl ltac:(unfold urlopen_ok; cbn; lia) eq_refl)
      as [_ Hrates].
    destruct (Hrates _ ltac:(vm_compute; reflexivity)) as [Hnone _].
    apply Hnone. vm_compute. reflexivity.
  - destruct (convert_currency_results (RT := plain_runtime) exchange_down
                100%float "usd" "eur") as (_ & _ & Hfetched).
    destruct (Hfetched _ _ eq_refl ltac:(unfold urlopen_ok; cbn; lia) eq_refl)
      as [Hnone _].
    apply Hnone. vm_compute. reflexivity.
Defined.

Lemma convert_currency_zero_rate_witness :
  result (convert_currency (RT := plain_runtime) exchange_zeros 100%float "usd" "eur")
    = Return (VStr "Error: No rate found for eur")
  ∧ result (convert_currency (RT := plain_runtime) exchange_zeros 100%float "usd" "xts")
    = Return (VStr "Error: No rate found for xts")
  ∧ result (convert_currency (RT := plain_runtime) exchange_zeros 100%float "usd" "xau")
    = Return (VStr "Error: No rate found for xau")
  ∧ result (convert_currency (RT := plain_runtime) exchange_zeros 100%float "usd" "xag")
    = Return (VStr "Error: No rate found for xag").
Proof.
  split; [| split; [| split]].
  - refine (convert_currency_zero_rate (RT := plain_runtime) exchange_zeros
              100%float "usd" "eur" _ _
              (<[ "JPY" := VInt 150 ]> (<[ "XTS" := VInt 0 ]>
                 (<[ "XAU" := VFloat 0%float ]> {[ "XAG" := VFloat neg_zero ]})))
              eq_refl _ eq_refl _ _).
    + unfold urlopen_ok. cbn. lia.
    + vm_compute. reflexivity.
    + left. vm_compute. reflexivity.
  - refine (convert_currency_zero_rate (RT := plain_runtime) exchange_zeros
              100%float "usd" "xts" _ _
              (<[ "JPY" := VInt 150 ]> (<[ "XTS" := VInt 0 ]>
                 (<[ "XAU" := VFloat 0%float ]> {[ "XAG" := VFloat neg_zero ]})))
              eq_refl _ eq_refl _ _).
    + unfold urlopen_ok. cbn. lia.
    + vm_compute. reflexivity.
    + right. left. vm_compute. reflexivity.
  - refine (convert_currency_zero_rate (RT := plain_runtime) exchange_zeros
              100%float "usd" "xau" _ _
              (<[ "JPY" := VInt 150 ]> (<[ "XTS" := VInt 0 ]>
                 (<[ "XAU" := VFloat 0%float ]> {[ "XAG" := VFloat neg_zero ]})))
              eq_refl _ eq_refl _ _).
    + unfold urlopen_ok. cbn. lia.
    + vm_compute. reflexivity.
    + right. right. left. vm_compute. reflexivity.
  - refine (convert_currency_zero_rate (RT := plain_runtime) exchange_zeros
              100%float "usd" "xag" _ _
              (<[ "JPY" := VInt 150 ]> (<[ "XTS" := VInt 0 ]>
                 (<[ "XAU" := VFloat 0%float ]> {[ "XAG" := VFloat neg_zero ]})))
              eq_refl _ eq_refl _ _).
    + unfold urlopen_ok. cbn. lia.
    + vm_compute. reflexivity.
    + right. right. right. vm_compute. reflexivity.
Defined.

Lemma web_search_without_credential_witness :
  ∃ s, web_search (RT := plain_runtime) unauthorized
         {| TAVILY_API_KEY := VNone |} "capital of France"
       = (Return (VStr s),
          [Http (search_request {| TAVILY_API_KEY := VNone |} "capital of France")])
       ∧ substring_of "Error" s = true.
Proof.
  destruct (web_search_without_credential (RT := plain_runtime) unauthorized
              ∅ (lookup_empty "TAVILY_API_KEY")) as (G & Hload & Hkey & Hsearch).
  injection Hload as <-.
  refine (Hsearch "capital of France" _ eq_refl _).
  unfold error_status. cbn. lia.
Defined.

Lemma get_weather_city_precedence_witness :
  get_weather (RT := plain_runtime) sunny (VStr EmptyString)
    {[ "location" := VStr "Berlin" ]}
  = (Return (VStr "Error: No city provided."), []).
Proof.
  refine (proj2 (get_weather_city_precedence (RT := plain_runtime) sunny
                   (VStr EmptyString) {[ "location" := VStr "Berlin" ]} ∅ _)
            eq_refl).
  discriminate.
Defined.


Lemma web_search_no_results_witness :
  web_search (RT := plain_runtime)
    (answering 200 (inr (VDict {[ "results" := VList [] ]})))
    {| TAVILY_API_KEY := VStr "tvly-key" |} "capital of France"
  = (Return (VStr "No results found."),
     [Http (search_request {| TAVILY_API_KEY := VStr "tvly-key" |}
              "capital of France")]).
Proof.
  apply (web_search_no_results (RT := plain_runtime)
           (answering 200 (inr (VDict {[ "results" := VList [] ]})))
           {| TAVILY_API_KEY := VStr "tvly-key" |} "capital of France"
           {| status_code := 200; text := EmptyString;
              json_body := inr (VDict {[ "results" := VList [] ]}) |}
           {[ "results" := VList [] ]}).
  - reflexivity.
  - unfold error_status. cbn. lia.
  - reflexivity.
  - vm_compute. reflexivity.
Defined.

Lemma web_search_lists_hits_witness :
  result (web_search (RT := plain_runtime) two_hits
            {| TAVILY_API_KEY := VStr "tvly-key" |} "capital of France")
  = Return (VStr ("Result 1: Paris" +:+ newline +:+ "Capital of France"
                  +:+ newline +:+ newline
                  +:+ "Result 2: France" +:+ newline +:+ "No snippet available")).
Proof.
  refine ((web_search_lists_hits (RT := plain_runtime) two_hits
            {| TAVILY_API_KEY := VStr "tvly-key" |} "capital of France"
            {| status_code := 200; text := EmptyString;
               json_body := inr (VDict {[ "results" := VList
                 [ VDict (<[ "title" := VStr "Paris" ]>
                            {[ "snippet" := VStr "Capital of France" ]});
                   VDict {[ "title" := VStr "France" ]} ] ]}) |}
            {[ "results" := VList
                 [ VDict (<[ "title" := VStr "Paris" ]>
                            {[ "snippet" := VStr "Capital of France" ]});
                   VDict {[ "title" := VStr "France" ]} ] ]}
            [ <[ "title" := VStr "Paris" ]> {[ "snippet" := VStr "Capital of France" ]};
              {[ "title" := VStr "France" ]} ]
            _ _ _ _ _)).
  - reflexivity.
  - unfold error_status. cbn. lia.
  - reflexivity.
  - vm_compute. reflexivity.
  - discriminate.
Defined.

Lemma web_search_malformed_hit_witness :
  result (web_search (RT := plain_runtime)
            (answering 200 (inr (VDict {[ "results" :=
               VList [VDict {[ "title" := VStr "Paris" ]}; VStr "France"] ]})))
            {| TAVILY_API_KEY := VStr "tvly-key" |} "capital of France")
  = Return (VStr "Error during web search: error").
Proof.
  apply (web_search_malformed_hit (RT := plain_runtime)
           (answering 200 (inr (VDict {[ "results" :=
              VList [VDict {[ "title" := VStr "Paris" ]}; VStr "France"] ]})))
           {| TAVILY_API_KEY := VStr "tvly-key" |} "capital of France"
           {| status_code := 200; text := EmptyString;
              json_body := inr (VDict {[ "results" :=
                VList [VDict {[ "title" := VStr "Paris" ]}; VStr "France"] ]}) |}
           {[ "results" :=
                VList [VDict {[ "title" := VStr "Paris" ]}; VStr "France"] ]}
           [VDict {[ "title" := VStr "Paris" ]}; VStr "France"]).
  - reflexivity.
  - unfold error_status. cbn. lia.
  - reflexivity.
  - vm_compute. reflexivity.
  - reflexivity.
Defined.

Lemma web_search_sends_key_and_query_witness :
  ∃ G payload,
    load_module {[ "TAVILY_API_KEY" := "tvly-key" ]} = Return G
    ∧ trace (web_search (RT := plain_runtime) offline G "capital of France")
      = [Http {| via := Requests; method := POST;
                 url := "https://api.tavily.com/search"; headers := [];
                 json := Some (VDict payload); timeout := Some 10 |}]
    ∧ payload !! "api_key" = Some (VStr "tvly-key")
    ∧ payload !! "query" = Some (VStr "capital of France")
    ∧ payload !! "search_depth" = Some (VStr "advanced")
    ∧ payload !! "max_results" = Some (VInt 4).
Proof.
  apply (web_search_sends_key_and_query (RT := plain_runtime) offline
           {[ "TAVILY_API_KEY" := "tvly-key" ]} "tvly-key" "capital of France").
  vm_compute. reflexivity.
Defined.

Lemma convert_currency_fetch_failure_witness :
  result (convert_currency (RT := plain_runtime) offline 100%float "usd" "eur")
    = Return (VStr "Error converting currency: unreachable")
  ∧ result (convert_currency (RT := plain_runtime)
              (answering 404 (inr (VDict {[ "rates" :=
                 VDict {[ "EUR" := VFloat 0.5%float ]} ]})))
              100%float "usd" "eur")
    = Return (VStr "Error converting currency: 404")
  ∧ result (convert_currency (RT := plain_runtime)
              (answering 200 (inl (Upstream "JSONDecodeError" "Expecting value")))
              100%float "usd" "eur")
    = Return (VStr "Error converting currency: Expecting value").
Proof.
  split; [| split].
  - apply (proj1 (convert_currency_fetch_failure (RT := plain_runtime)
                    offline 100%float "usd" "eur")
             (Upstream "ConnectionError" "unreachable")).
    reflexivity.
  - apply (proj1 (proj2 (convert_currency_fetch_failure (RT := plain_runtime)
             (answering 404 (inr (VDict {[ "rates" :=
                VDict {[ "EUR" := VFloat 0.5%float ]} ]})))
             100%float "usd" "eur"))
             {| status_code := 404; text := EmptyString;
                json_body := inr (VDict {[ "rates" :=
                  VDict {[ "EUR" := VFloat 0.5%float ]} ]}) |}).
    + reflexivity.
    + unfold urlopen_ok. cbn. lia.
  - apply (proj2 (proj2 (convert_currency_fetch_failure (RT := plain_runtime)
             (answering 200 (inl (Upstream "JSONDecodeError" "Expecting value")))
             100%float "usd" "eur"))
             {| status_code := 200; text := EmptyString;
                json_body := inl (Upstream "JSONDecodeError" "Expecting value") |}
             (Upstream "JSONDecodeError" "Expecting value")).
    + reflexivity.
    + unfold urlopen_ok. cbn. lia.
    + reflexivity.
Defined.

Lemma convert_currency_ignores_case_witness :
  trace (convert_currency (RT := plain_runtime) exchange 100%float "usd" "Eur")
    = trace (convert_currency (RT := plain_runtime) exchange 100%float "USD" "eUR")
  ∧ (result (convert_currency (RT := plain_runtime) exchange 100%float "usd" "Eur")
       = result (convert_currency (RT := plain_runtime) exchange 100%float "USD" "eUR")
     ∨ (result (convert_currency (RT := plain_runtime) exchange 100%float "usd" "Eur")
          = Return (VStr ("Error: No rate found for " +:+ "Eur"))
        ∧ result (convert_currency (RT := plain_runtime) exchange 100%float "USD" "eUR")
          = Return (VStr ("Error: No rate found for " +:+ "eUR")))).
Proof.
  apply (convert_currency_ignores_case (RT := plain_runtime) exchange
           100%float "usd" "Eur" "USD" "eUR"); reflexivity.
Defined.

Lemma convert_currency_unusable_rate_witness :
  ∃ e,
    (e = TypeError "*" ∨ e = OverflowError)
    ∧ result (convert_currency (RT := plain_runtime)
                (answering 200 (inr (VDict {[ "rates" :=
                   VDict {[ "EUR" := VStr "0.5" ]} ]})))
                100%float "usd" "eur")
      = Return (VStr ("Error converting currency: "
                      +:+ exc_str (Runtime := plain_runtime) e)).
Proof.
  apply (convert_currency_unusable_rate (RT := plain_runtime)
           (answering 200 (inr (VDict {[ "rates" :=
              VDict {[ "EUR" := VStr "0.5" ]} ]})))
           100%float "usd" "eur"
           {| status_code := 200; text := EmptyString;
              json_body := inr (VDict {[ "rates" :=
                VDict {[ "EUR" := VStr "0.5" ]} ]}) |}
           {[ "rates" := VDict {[ "EUR" := VStr "0.5" ]} ]}
           {[ "EUR" := VStr "0.5" ]} (VStr "0.5")).
  - reflexivity.
  - unfold urlopen_ok. cbn. lia.
  - reflexivity.
  - vm_compute. reflexivity.
  - vm_compute. reflexivity.
  - reflexivity.
  - reflexivity.
Defined.

Lemma convert_currency_rates_not_table_witness :
  result (convert_currency (RT := plain_runtime)
            (answering 200 (inr (VDict {[ "rates" := VList [VFloat 0.5%float] ]})))
            100%float "usd" "eur")
  = Return (VStr "Error converting currency: error").
Proof.
  apply (convert_currency_rates_not_table (RT := plain_runtime)
           (answering 200 (inr (VDict {[ "rates" := VList [VFloat 0.5%float] ]})))
           100%float "usd" "eur"
           {| status_code := 200; text := EmptyString;
              json_body := inr (VDict {[ "rates" := VList [VFloat 0.5%float] ]}) |}
           {[ "rates" := VList [VFloat 0.5%float] ]}
           (VList [VFloat 0.5%float])).
  - reflexivity.
  - unfold urlopen_ok. cbn. lia.
  - reflexivity.
  - vm_compute. reflexivity.
  - reflexivity.
Defined.


Lemma get_stock_price_search_failed_witness :
  get_stock_price (RT := plain_runtime) unauthorized "Apple"
  = (Return (VStr "Could not find a ticker symbol for Apple."),
     [Http (ticker_request "Apple")]).
Proof.
  apply (get_stock_price_search_failed (RT := plain_runtime) unauthorized "Apple").
  left. unfold error_status. cbn. lia.
Defined.

Lemma get_stock_price_missing_close_witness :
  get_stock_price (RT := plain_runtime) (market (inr no_close)) "Apple"
  = (Return (VStr "Error retrieving stock price for Apple: error"),
     [Http (ticker_request "Apple"); YfHistory (VStr "AAPL") "1d"]).
Proof.
  apply (get_stock_price_missing_close (RT := plain_runtime)
           (market (inr no_close)) "Apple" (VStr "AAPL") no_close).
  - vm_compute. reflexivity.
  - reflexivity.
  - reflexivity.
  - vm_compute. reflexivity.
  - vm_compute. reflexivity.
Defined.

Lemma web_search_failure_witness :
  result (web_search (RT := plain_runtime) offline
            {| TAVILY_API_KEY := VStr "tvly-key" |} "capital of France")
    = Return (VStr "Error during web search: unreachable")
  ∧ result (web_search (RT := plain_runtime) unauthorized
              {| TAVILY_API_KEY := VStr "tvly-key" |} "capital of France")
    = Return (VStr "Error during web search: 401")
  ∧ result (web_search (RT := plain_runtime) sunny
              {| TAVILY_API_KEY := VStr "tvly-key" |} "capital of France")
    = Return (VStr "Error during web search: Expecting value")
  ∧ result (web_search (RT := plain_runtime)
              (answering 200 (inr (VList [])))
              {| TAVILY_API_KEY := VStr "tvly-key" |} "capital of France")
    = Return (VStr "Error during web search: error").
Proof.
  split; [| split; [| split]].
  - apply (proj1 (web_search_failure (RT := plain_runtime) offline
                    {| TAVILY_API_KEY := VStr "tvly-key" |} "capital of France")
             (Upstream "ConnectionError" "unreachable")).
    reflexivity.
  - apply (proj1 (proj2 (web_search_failure (RT := plain_runtime) unauthorized
                    {| TAVILY_API_KEY := VStr "tvly-key" |} "capital of France"))
             {| status_code := 401; text := "Unauthorized";
                json_body := inl (Upstream "JSONDecodeError" "Expecting value") |}).
    + reflexivity.
    + unfold error_status. cbn. lia.
  - apply (proj1 (proj2 (proj2 (web_search_failure (RT := plain_runtime) sunny
                    {| TAVILY_API_KEY := VStr "tvly-key" |} "capital of France")))
             {| status_code := 200; text := "Berlin: +7C" +:+ newline;
                json_body := inl (Upstream "JSONDecodeError" "Expecting value") |}
             (Upstream "JSONDecodeError" "Expecting value")).
    + reflexivity.
    + unfold error_status. cbn. lia.
    + reflexivity.
  - apply (proj2 (proj2 (proj2 (web_search_failure (RT := plain_runtime)
                    (answering 200 (inr (VList [])))
                    {| TAVILY_API_KEY := VStr "tvly-key" |} "capital of France")))
             {| status_code := 200; text := EmptyString;
                json_body := inr (VList []) |}
             (VList [])).
    + reflexivity.
    + unfold error_status. cbn. lia.
    + reflexivity.
    + reflexivity.
Defined.
